(** * infintebites: the planner controller, its event fan-out and the
      static-asset responder, embedded in Rocq.

    Sources embedded here:
    - planner.js        ([jsonFetch], [validateFields], class [PlannerApp]);
    - experience layer  ([ExperienceApp.wirePlannerEvents],
                         [ExperienceApp.handlePlannerEvent] and the widgets'
                         [sync...] methods it calls);
    - the basic-auth static file handler ([handler]).

    JavaScript strings are sequences of UTF-16 code units, numbers are IEEE
    doubles ([spec_float] of the Standard Library), objects used as
    dictionaries are [gmap]s, exceptions are an explicit outcome. *)

From Stdlib Require Import ZArith NArith List Ascii String Bool Lia DecimalString.
From Stdlib Require Import Floats.SpecFloat.
From stdpp Require Import base option list gmap strings.

Import ListNotations.
Set Warnings "-register-all".
Local Open Scope N_scope.

(* ===================================================================== *)
(** ** JavaScript strings *)
(* ===================================================================== *)

(** A string is the list of its UTF-16 code units; [.length] is [length]. *)
Definition jsstring : Type := list N.

(** A source literal (ASCII) as a JavaScript string. *)
Definition js (s : string) : jsstring :=
  map N_of_ascii (list_ascii_of_string s).

(** WhiteSpace and LineTerminator code points of ECMAScript: the set that
    [String.prototype.trim] strips and that [\s] matches in a RegExp. *)
Definition is_space (c : N) : bool :=
  (c =? 0x09) || (c =? 0x0A) || (c =? 0x0B) || (c =? 0x0C) || (c =? 0x0D)
  || (c =? 0x20) || (c =? 0xA0) || (c =? 0x1680)
  || ((0x2000 <=? c) && (c <=? 0x200A))
  || (c =? 0x2028) || (c =? 0x2029) || (c =? 0x202F) || (c =? 0x205F)
  || (c =? 0x3000) || (c =? 0xFEFF).

Fixpoint trimStart (s : jsstring) : jsstring :=
  match s with
  | c :: r => if is_space c then trimStart r else s
  | [] => []
  end.

Definition trimEnd (s : jsstring) : jsstring := rev (trimStart (rev s)).

(** [s.trim()] *)
Definition trim (s : jsstring) : jsstring := trimEnd (trimStart s).

(** ToBoolean on a string: the empty string is the only falsy one. *)
Definition truthy_str (s : jsstring) : bool :=
  match s with [] => false | _ :: _ => true end.

(** [a || b] on strings. *)
Definition or_str (a b : jsstring) : jsstring :=
  if truthy_str a then a else b.

(** [s.split(sep)] for a one-code-unit separator: always at least one piece. *)
Fixpoint split_on (sep : N) (s : jsstring) : list jsstring :=
  match s with
  | [] => [[]]
  | c :: r =>
      if c =? sep then [] :: split_on sep r
      else match split_on sep r with
           | p :: ps => (c :: p) :: ps
           | [] => [[c]]
           end
  end.

(* ===================================================================== *)
(** ** Regular expressions (anchored [test]) *)
(* ===================================================================== *)

Module RegExp.

Inductive regex : Type :=
| Empty                         (* matches nothing *)
| Eps                           (* matches the empty string *)
| Class (p : N -> bool)         (* one code unit satisfying [p] *)
| Seq (a b : regex)
| Alt (a b : regex)
| Star (a : regex).

(** [a+] *)
Definition Plus (a : regex) : regex := Seq a (Star a).
(** a literal code unit such as [@] or [\.] *)
Definition Chr (c : N) : regex := Class (N.eqb c).

Fixpoint nullable (r : regex) : bool :=
  match r with
  | Empty => false
  | Eps => true
  | Class _ => false
  | Seq a b => nullable a && nullable b
  | Alt a b => nullable a || nullable b
  | Star _ => true
  end.

Fixpoint deriv (c : N) (r : regex) : regex :=
  match r with
  | Empty => Empty
  | Eps => Empty
  | Class p => if p c then Eps else Empty
  | Seq a b =>
      if nullable a then Alt (Seq (deriv c a) b) (deriv c b)
      else Seq (deriv c a) b
  | Alt a b => Alt (deriv c a) (deriv c b)
  | Star a => Seq (deriv c a) (Star a)
  end.

(** [/^r$/.test(s)]: the whole of [s] matches [r]. *)
Fixpoint test_anchored (r : regex) (s : jsstring) : bool :=
  match s with
  | [] => nullable r
  | c :: s' => test_anchored (deriv c r) s'
  end.

End RegExp.

(* ===================================================================== *)
(** ** JavaScript numbers *)
(* ===================================================================== *)

(** A Number is an IEEE-754 binary64 value. *)
Definition jsnum : Type := spec_float.

(** The double of an integer literal of the source. *)
Definition num_of_Z (z : Z) : jsnum := binary_normalize 53 1024 z 0 false.

(** [Number.isFinite(x)] for a Number [x]. *)
Definition Number_isFinite (x : jsnum) : bool :=
  match x with
  | S754_zero _ | S754_finite _ _ _ => true
  | S754_infinity _ | S754_nan => false
  end.

(** [a < b], [a <= b], [a > b] on Numbers. *)
Definition num_lt (a b : jsnum) : bool := SFltb a b.
Definition num_le (a b : jsnum) : bool := SFleb a b.
Definition num_gt (a b : jsnum) : bool := SFltb b a.

(* ===================================================================== *)
(** ** JavaScript values *)
(* ===================================================================== *)

(** The constructor an object was made by, as far as [instanceof] and the
    inherited [name] can tell. *)
Inductive jsclass : Type :=
| CObject | CError | CTypeError | CURIError | CDOMException.

(** Values that flow through the planner: decoded JSON, thrown errors. *)
Inductive jsval : Type :=
| VUndefined
| VNull
| VBool (b : bool)
| VNum (x : jsnum)
| VStr (s : jsstring)
| VArr (items : list jsval)
| VObj (cls : jsclass) (props : list (string * jsval)).

(** One property [k: v] of an object literal. *)
Definition prop (k : string) (v : jsval) : string * jsval := (k, v).

Fixpoint assoc (k : string) (l : list (string * jsval)) : option jsval :=
  match l with
  | [] => None
  | (k', v) :: r => if String.eqb k k' then Some v else assoc k r
  end.

(** [v.k] for a non-nullish [v] and a property [k] other than [length]:
    own properties of objects; nothing on primitives and arrays. *)
Definition get_prop (v : jsval) (k : string) : jsval :=
  match v with
  | VObj _ props => default VUndefined (assoc k props)
  | _ => VUndefined
  end.

(** [v?.k] *)
Definition get_prop_opt (v : jsval) (k : string) : jsval :=
  match v with
  | VUndefined | VNull => VUndefined
  | _ => get_prop v k
  end.

(** [v.name]: own property, else the one inherited from the prototype. *)
Definition get_name (v : jsval) : jsval :=
  match v with
  | VObj cls props =>
      match assoc "name" props with
      | Some n => n
      | None =>
          match cls with
          | CObject => VUndefined
          | CError => VStr (js "Error")
          | CTypeError => VStr (js "TypeError")
          | CURIError => VStr (js "URIError")
          | CDOMException => VStr (js "Error")
          end
      end
  | _ => VUndefined
  end.

(** ToBoolean *)
Definition truthy (v : jsval) : bool :=
  match v with
  | VUndefined | VNull => false
  | VBool b => b
  | VNum x =>
      match x with
      | S754_zero _ | S754_nan => false
      | _ => true
      end
  | VStr s => truthy_str s
  | VArr _ | VObj _ _ => true
  end.

(** [v === 'lit'] *)
Definition is_str (v : jsval) (lit : jsstring) : bool :=
  match v with
  | VStr s => bool_decide (s = lit)
  | _ => false
  end.

(** [typeof v === 'string'], [typeof v === 'number'] *)
Definition typeof_string (v : jsval) : bool :=
  match v with VStr _ => true | _ => false end.
Definition typeof_number (v : jsval) : bool :=
  match v with VNum _ => true | _ => false end.

(** [v instanceof TypeError] *)
Definition instanceof_TypeError (v : jsval) : bool :=
  match v with VObj CTypeError _ => true | _ => false end.

(** [a ?? b] *)
Definition nullish_or (a b : jsval) : jsval :=
  match a with VUndefined | VNull => b | _ => a end.

(** [a || b] *)
Definition or_val (a b : jsval) : jsval := if truthy a then a else b.

(** The result of running a statement: normal completion or a throw. *)
Inductive outcome (A : Type) : Type :=
| Ret (a : A)
| Throw (e : jsval).
Arguments Ret {A} a.
Arguments Throw {A} e.

(** The TypeError the engine raises on a property access on [null] or on
    a call of a non-function. Its message text is engine-specific and is
    never ['timeout']. *)
Definition engine_TypeError : jsval :=
  VObj CTypeError [prop "message" (VStr (js "Cannot read properties of null"))].

(** Built-ins of the host (ECMAScript and DOM) that the sources call and
    that are not part of the repository. *)
Class Host : Type := {
  (** [Number(s)]: StringToNumber *)
  Number : jsstring -> jsnum;
  (** [String(v)] and template-literal interpolation: ToString *)
  ToString : jsval -> jsstring;
  (** [encodeURIComponent(s)]: throws URIError on a lone surrogate *)
  encodeURIComponent : jsstring -> outcome jsstring
}.

(** Decimal digits of a natural number, as [`${n}`] prints an integer. *)
Definition dec (n : N) : jsstring :=
  js (NilZero.string_of_uint (N.to_uint n)).

(* ===================================================================== *)
(** ** planner.js: types and constants *)
(* ===================================================================== *)

Inductive PlannerState : Type :=
| idle | validating | submitting | success | error.

Inductive PlannerErrorKind : Type :=
| VALIDATION | NETWORK | TIMEOUT | SERVER | UNKNOWN.

(** [email] is [None] when the key is absent. *)
Record PlannerPayload : Type := {
  age_months : jsnum;
  concern : jsstring;
  email : option jsstring
}.

Record PlannerValidationResult : Type := {
  ok : bool;
  formError : option jsstring;
  fieldErrors : gmap string jsstring
}.

(** [raw] is [None] when the key is absent. *)
Record PlannerResolvedError : Type := {
  kind : PlannerErrorKind;
  message : jsstring;
  raw : option jsval
}.

Module DEFAULTS.
Module API.
Definition PLAN : jsstring := js "/api/planner/plan".
Definition BUNDLES `{Host} (concern : jsstring) : outcome jsstring :=
  match encodeURIComponent concern with
  | Ret enc => Ret (js "/api/bundles?age=" ++ enc)
  | Throw e => Throw e
  end.
Definition TIMEOUT_MS : N := 15000.
End API.
Module CSS.
Definition STATUS_OK : string := "status status--ok".
Definition STATUS_ERROR : string := "status status--error".
Definition STATUS_NEUTRAL : string := "status".
End CSS.
Module TEXT.
Definition PLAN_HEADING := js "Your Personalized Plan".
Definition BUNDLES_HEADING := js "Recommended Deals".
Definition NO_BUNDLES := js "No bundles found for this concern.".
Definition DISCLAIMER :=
  js "This plan is general in nature and is not medical advice. Always consult a qualified professional for specific concerns.".
Definition STATUS_IDLE : jsstring := [].
(* the text ends in U+2026 *)
Definition STATUS_LOADING := js "Generating your plan" ++ [0x2026].
Definition STATUS_SUCCESS := js "All done! Enjoy your personalized plan.".
Definition STATUS_VALIDATION_ERROR :=
  js "Please fix the highlighted fields and try again.".
Definition STATUS_GENERIC_ERROR :=
  js "Something went wrong. Please try again later.".
(* the dash is U+2013 *)
Definition STATUS_NETWORK_ERROR :=
  js "Network error " ++ [0x2013]
     ++ js " please check your connection and try again.".
Definition STATUS_TIMEOUT_ERROR :=
  js "Request took too long " ++ [0x2013]
     ++ js " please try again in a moment.".
Definition STATUS_PARTIAL_BUNDLES_ERROR :=
  js "Plan generated, but bundle recommendations are unavailable right now.".
End TEXT.
Module VALIDATION.
Definition MIN_AGE_MONTHS : jsnum := Eval vm_compute in num_of_Z 1.
Definition MAX_AGE_MONTHS : jsnum := Eval vm_compute in num_of_Z 600.
Definition MIN_CONCERN_LEN : nat := 3.
Definition MAX_CONCERN_LEN : nat := 500.
End VALIDATION.
End DEFAULTS.

(* ===================================================================== *)
(** ** jsonFetch *)
(* ===================================================================== *)

Record request : Type := {
  req_url : jsstring;
  req_method : string;
  req_headers : list (string * string);
  (** the payload that [JSON.stringify] serialises into the body *)
  req_body : option PlannerPayload;
  req_timeoutMs : N
}.

(** What reading and decoding the response body comes to: [res.text()]
    gives the empty string, a text that [JSON.parse] decodes to [v], a
    text it rejects, or the read is cut by the abort signal. *)
Inductive body_read : Type :=
| BodyEmpty
| BodyJson (v : jsval)
| BodyMalformed
| BodyAborted.

(** What [fetch] does with a request: it rejects (a [TypeError] when the
    network cannot be reached, an [AbortError] when the timer fires), or
    it resolves to a response. *)
Inductive fetch_outcome : Type :=
| FetchRejected (e : jsval)
| FetchResponse (status : N) (body : body_read).

Definition AbortError : jsval :=
  VObj CDOMException [prop "name" (VStr (js "AbortError"));
                      prop "message" (VStr (js "The operation was aborted."))].

(** [res.ok] *)
Definition res_ok (status : N) : bool := (200 <=? status) && (status <=? 299).

(** [new Error(msg)] *)
Definition new_Error (msg : jsstring) : jsval :=
  VObj CError [prop "message" (VStr msg)].

(** The body of [jsonFetch]'s [try] block. *)
Definition jsonFetch_try (o : fetch_outcome) : outcome jsval :=
  match o with
  | FetchRejected e => Throw e
  | FetchResponse status body =>
      if negb (res_ok status) then
        let detail :=
          match body with
          | BodyJson json =>
              if truthy json && typeof_string (get_prop json "message")
              then match get_prop json "message" with
                   | VStr m => js ": " ++ m
                   | _ => []
                   end
              else []
          | BodyEmpty | BodyMalformed | BodyAborted => []
          end in
        Throw (VObj CError
                 [prop "message" (VStr (js "HTTP " ++ dec status ++ detail));
                  prop "status" (VNum (num_of_Z (Z.of_N status)))])
      else
        match body with
        | BodyAborted => Throw AbortError
        | BodyEmpty => Ret VNull
        | BodyJson v => Ret v
        | BodyMalformed => Throw (new_Error (js "Invalid JSON response"))
        end
  end.

(** The error [jsonFetch] throws for an abort. *)
Definition timeout_error : jsval :=
  VObj CError [prop "message" (VStr (js "timeout"));
               prop "code" (VStr (js "TIMEOUT"))].

(** [jsonFetch] once [fetch] has settled: the [try] block and its [catch]. *)
Definition jsonFetch_result (o : fetch_outcome) : outcome jsval :=
  match jsonFetch_try o with
  | Ret v => Ret v
  | Throw err =>
      if truthy err && is_str (get_name err) (js "AbortError")
      then Throw timeout_error
      else Throw err
  end.

(* ===================================================================== *)
(** ** validateFields *)
(* ===================================================================== *)

(** [/^[^\s@]+@[^\s@]+\.[^\s@]+$/] *)
Definition basicEmailRegex : RegExp.regex :=
  let not_space_at := RegExp.Class (fun c => negb (is_space c || (c =? 0x40))) in
  RegExp.Seq (RegExp.Plus not_space_at)
    (RegExp.Seq (RegExp.Chr 0x40)
       (RegExp.Seq (RegExp.Plus not_space_at)
          (RegExp.Seq (RegExp.Chr 0x2E) (RegExp.Plus not_space_at)))).

Section Validation.
Context `{Host}.

Definition validateFields (ageRaw concernRaw emailRaw : jsstring)
  : PlannerValidationResult :=
  let fieldErrors : gmap string jsstring := ∅ in
  (* Age *)
  let ageValue := trim ageRaw in
  let ageNumber := Number ageValue in
  let fieldErrors :=
    if negb (truthy_str ageValue) then
      <["age"%string := js "Age is required."]> fieldErrors
    else if negb (Number_isFinite ageNumber)
            || num_le ageNumber (S754_zero false) then
      <["age"%string := js "Age must be a positive number."]> fieldErrors
    else if num_lt ageNumber DEFAULTS.VALIDATION.MIN_AGE_MONTHS
            || num_gt ageNumber DEFAULTS.VALIDATION.MAX_AGE_MONTHS then
      <["age"%string := js "Age must be between 1 and 600 months."]> fieldErrors
    else fieldErrors in
  (* Concern *)
  let concern := trim concernRaw in
  let fieldErrors :=
    if negb (truthy_str concern) then
      <["concern"%string := js "Please describe your main concern."]> fieldErrors
    else if (length concern <? DEFAULTS.VALIDATION.MIN_CONCERN_LEN)%nat then
      <["concern"%string := js "Concern must be at least 3 characters."]> fieldErrors
    else if (DEFAULTS.VALIDATION.MAX_CONCERN_LEN <? length concern)%nat then
      <["concern"%string := js "Concern must be at most 500 characters."]> fieldErrors
    else fieldErrors in
  (* Email (optional but validate if present) *)
  let email := trim emailRaw in
  let fieldErrors :=
    if truthy_str email then
      if negb (RegExp.test_anchored basicEmailRegex email) then
        <["email"%string := js "Please enter a valid email address."]> fieldErrors
      else fieldErrors
    else fieldErrors in
  let ok := (length (map_to_list fieldErrors) =? 0)%nat in
  {| ok := ok;
     formError := if ok then None
                  else Some DEFAULTS.TEXT.STATUS_VALIDATION_ERROR;
     fieldErrors := fieldErrors |}.

End Validation.

(* ===================================================================== *)
(** ** The page: what the planner renders into *)
(* ===================================================================== *)

(** The element trees the planner builds, by their visible content. *)
Inductive node : Type :=
| NHeading (id : string) (text : jsstring)
| NList (items : list (option jsstring))     (* one entry per <li> *)
| NParagraph (text : jsstring)
| NBundle (idSafe title : jsstring) (desc price : option jsstring)
          (href : jsstring).

(** An <input>: its value and the error message shown under it. *)
Record InputEl : Type := {
  value : jsstring;
  shownError : option jsstring
}.

Record PlannerUI : Type := {
  planSection : list node;
  bundlesSection : list node;
  statusText : jsstring;
  statusClass : string;
  spinnerHidden : bool;
  ariaBusy : bool;
  submitDisabled : bool;
  focused : option string;
  ageInput : option InputEl;       (* [None]: the element is missing *)
  concernInput : option InputEl;
  emailInput : option InputEl
}.

(** [input?.value ?? ''] *)
Definition input_value (input : option InputEl) : jsstring :=
  match input with Some i => value i | None => [] end.

(** [getTrimmedValue(input)]: [(input?.value ?? '').trim()] *)
Definition getTrimmedValue (input : option InputEl) : jsstring :=
  trim (input_value input).

(* ===================================================================== *)
(** ** Events *)
(* ===================================================================== *)

(** The [detail] argument of [onEvent], one shape per call site. *)
Inductive detail : Type :=
| DState (state : PlannerState)               (* { state } *)
| DFieldErrors (fe : gmap string jsstring)    (* { fieldErrors } *)
| DPayload (payload : PlannerPayload)         (* { payload } *)
| DPlan (plan : jsval)                        (* { plan } *)
| DBundles (bundles : jsval)                  (* { bundles } *)
| DPlanBundles (plan bundles : jsval)         (* { plan, bundles } *)
| DRaw (err : jsval)                          (* the caught value itself *)
| DResolved (resolved : PlannerResolvedError).

Definition event : Type := string * detail.

(** An event sink [(stage, detail) => void] acting on the observers'
    state [Obs]; it may throw. *)
Definition Sink (Obs : Type) : Type :=
  string -> detail -> Obs -> outcome unit * Obs.

(* ===================================================================== *)
(** ** class PlannerApp *)
(* ===================================================================== *)

Record PlannerApp (Obs : Type) : Type := {
  state : PlannerState;
  onEvent : Sink Obs;
  planEndpoint : jsstring;
  bundlesEndpoint : jsstring -> outcome jsstring;
  timeoutMs : N;
  ui : PlannerUI
}.
Arguments state {Obs} _.
Arguments onEvent {Obs} _.
Arguments planEndpoint {Obs} _.
Arguments bundlesEndpoint {Obs} _.
Arguments timeoutMs {Obs} _.
Arguments ui {Obs} _.

(** Everything a submission can read or change: the controller, the
    observers behind its sink, the network with the calls made so far, and
    the submit event's [defaultPrevented] flag. *)
Record World (Obs : Type) : Type := {
  app : PlannerApp Obs;
  obs : Obs;
  network : request -> fetch_outcome;
  calls : list request;
  defaultPrevented : bool
}.
Arguments app {Obs} _.
Arguments obs {Obs} _.
Arguments network {Obs} _.
Arguments calls {Obs} _.
Arguments defaultPrevented {Obs} _.

(** Statements: state passing with exceptions. *)
Definition M (Obs A : Type) : Type := World Obs -> outcome A * World Obs.

Section Monad.
Context {Obs : Type}.

#[export] Instance M_ret : MRet (M Obs) := fun A a w => (Ret a, w).
#[export] Instance M_bind : MBind (M Obs) := fun A B f m w =>
  match m w with
  | (Ret a, w') => f a w'
  | (Throw e, w') => (Throw e, w')
  end.

(** Lift a pure computation that may throw. *)
Definition lift {A} (o : outcome A) : M Obs A := fun w => (o, w).

(** [try { body } catch (e) { handler }] *)
Definition try_catch {A} (body : M Obs A) (handler : jsval -> M Obs A)
  : M Obs A := fun w =>
  match body w with
  | (Ret a, w') => (Ret a, w')
  | (Throw e, w') => handler e w'
  end.

(** [try { body } finally { fin }] *)
Definition try_finally {A} (body : M Obs A) (fin : M Obs unit)
  : M Obs A := fun w =>
  match body w with
  | (r, w') =>
      match fin w' with
      | (Ret _, w'') => (r, w'')
      | (Throw e, w'') => (Throw e, w'')
      end
  end.

(** Read a field of [this]. *)
Definition this {A} (f : PlannerApp Obs -> A) : M Obs A :=
  fun w => (Ret (f (app w)), w).

Definition set_app (a : PlannerApp Obs) (w : World Obs) : World Obs :=
  {| app := a; obs := obs w; network := network w; calls := calls w;
     defaultPrevented := defaultPrevented w |}.

Definition set_ui (u : PlannerUI) (a : PlannerApp Obs) : PlannerApp Obs :=
  {| state := state a; onEvent := onEvent a;
     planEndpoint := planEndpoint a; bundlesEndpoint := bundlesEndpoint a;
     timeoutMs := timeoutMs a; ui := u |}.

Definition set_state (s : PlannerState) (a : PlannerApp Obs)
  : PlannerApp Obs :=
  {| state := s; onEvent := onEvent a;
     planEndpoint := planEndpoint a; bundlesEndpoint := bundlesEndpoint a;
     timeoutMs := timeoutMs a; ui := ui a |}.

(** Change the page. *)
Definition dom (f : PlannerUI -> PlannerUI) : M Obs unit :=
  fun w => (Ret tt, set_app (set_ui (f (ui (app w))) (app w)) w).

(** [this.onEvent(stage, detail)] *)
Definition call_onEvent (stage : string) (d : detail) : M Obs unit :=
  fun w =>
    match onEvent (app w) stage d (obs w) with
    | (r, o') =>
        (r, {| app := app w; obs := o'; network := network w;
               calls := calls w; defaultPrevented := defaultPrevented w |})
    end.

(** [event.preventDefault()] *)
Definition preventDefault : M Obs unit :=
  fun w =>
    (Ret tt, {| app := app w; obs := obs w; network := network w;
                calls := calls w; defaultPrevented := true |}).

(** [await jsonFetch(url, options)]: one call on the network. *)
Definition jsonFetch (r : request) : M Obs jsval :=
  fun w =>
    (jsonFetch_result (network w r),
     {| app := app w; obs := obs w; network := network w;
        calls := calls w ++ [r]; defaultPrevented := defaultPrevented w |}).

End Monad.

Section PlannerApp.
Context `{Host} {Obs : Type}.

(* ------------------------------------------------------------------- *)
(** *** UI/state helpers *)

Definition setState (newState : PlannerState) : M Obs unit :=
  (fun w => (Ret tt, set_app (set_state newState (app w)) w)) ;;
  call_onEvent "state_change" (DState newState).

Definition with_spinner (hidden busy : bool) (u : PlannerUI) : PlannerUI :=
  {| planSection := planSection u; bundlesSection := bundlesSection u;
     statusText := statusText u; statusClass := statusClass u;
     spinnerHidden := hidden; ariaBusy := busy;
     submitDisabled := submitDisabled u; focused := focused u;
     ageInput := ageInput u; concernInput := concernInput u;
     emailInput := emailInput u |}.

Definition showSpinner : M Obs unit := dom (with_spinner false true).
Definition hideSpinner : M Obs unit := dom (with_spinner true false).

Definition with_status (msg : jsstring) (cls : string) (u : PlannerUI)
  : PlannerUI :=
  {| planSection := planSection u; bundlesSection := bundlesSection u;
     statusText := msg; statusClass := cls;
     spinnerHidden := spinnerHidden u; ariaBusy := ariaBusy u;
     submitDisabled := submitDisabled u; focused := focused u;
     ageInput := ageInput u; concernInput := concernInput u;
     emailInput := emailInput u |}.

Definition setStatus (msg : jsstring) (isError : bool) : M Obs unit :=
  dom (with_status msg
         (if isError then DEFAULTS.CSS.STATUS_ERROR
          else if truthy_str msg then DEFAULTS.CSS.STATUS_OK
               else DEFAULTS.CSS.STATUS_NEUTRAL)).

Definition clearStatus : M Obs unit := setStatus DEFAULTS.TEXT.STATUS_IDLE false.

Definition with_submitDisabled (b : bool) (u : PlannerUI) : PlannerUI :=
  {| planSection := planSection u; bundlesSection := bundlesSection u;
     statusText := statusText u; statusClass := statusClass u;
     spinnerHidden := spinnerHidden u; ariaBusy := ariaBusy u;
     submitDisabled := b; focused := focused u;
     ageInput := ageInput u; concernInput := concernInput u;
     emailInput := emailInput u |}.

Definition disableForm : M Obs unit := dom (with_submitDisabled true).
Definition enableForm : M Obs unit := dom (with_submitDisabled false).

Definition with_focus (id : string) (u : PlannerUI) : PlannerUI :=
  {| planSection := planSection u; bundlesSection := bundlesSection u;
     statusText := statusText u; statusClass := statusClass u;
     spinnerHidden := spinnerHidden u; ariaBusy := ariaBusy u;
     submitDisabled := submitDisabled u; focused := Some id;
     ageInput := ageInput u; concernInput := concernInput u;
     emailInput := emailInput u |}.

Definition with_inputs (a c e : option InputEl) (u : PlannerUI)
  : PlannerUI :=
  {| planSection := planSection u; bundlesSection := bundlesSection u;
     statusText := statusText u; statusClass := statusClass u;
     spinnerHidden := spinnerHidden u; ariaBusy := ariaBusy u;
     submitDisabled := submitDisabled u; focused := focused u;
     ageInput := a; concernInput := c; emailInput := e |}.

Definition with_planSection (l : list node) (u : PlannerUI) : PlannerUI :=
  {| planSection := l; bundlesSection := bundlesSection u;
     statusText := statusText u; statusClass := statusClass u;
     spinnerHidden := spinnerHidden u; ariaBusy := ariaBusy u;
     submitDisabled := submitDisabled u; focused := focused u;
     ageInput := ageInput u; concernInput := concernInput u;
     emailInput := emailInput u |}.

Definition with_bundlesSection (l : list node) (u : PlannerUI) : PlannerUI :=
  {| planSection := planSection u; bundlesSection := l;
     statusText := statusText u; statusClass := statusClass u;
     spinnerHidden := spinnerHidden u; ariaBusy := ariaBusy u;
     submitDisabled := submitDisabled u; focused := focused u;
     ageInput := ageInput u; concernInput := concernInput u;
     emailInput := emailInput u |}.

(** [setFieldError(field, message)] on the field's own element: any
    shown error is removed, a truthy [message] is then shown. *)
Definition setFieldError (field : InputEl) (message : option jsstring)
  : InputEl :=
  {| value := value field;
     shownError := match message with
                   | Some m => if truthy_str m then Some m else None
                   | None => None
                   end |}.

Definition clearFieldErrors : M Obs unit :=
  dom (fun u =>
         with_inputs ((fun i => setFieldError i None) <$> ageInput u)
                     ((fun i => setFieldError i None) <$> concernInput u)
                     ((fun i => setFieldError i None) <$> emailInput u) u).

(* ------------------------------------------------------------------- *)
(** *** Validation *)

(** [this.<x>Input && result.fieldErrors.<x>] *)
Definition input_and_error (input : option InputEl)
    (fe : gmap string jsstring) (k : string) : option jsstring :=
  match input, fe !! k with
  | Some _, Some m => if truthy_str m then Some m else None
  | _, _ => None
  end.

Definition first_or (first : option string) (id : string) : option string :=
  match first with Some f => Some f | None => Some id end.

(** The validator applied to the form's three inputs. *)
Definition validateForm (u : PlannerUI) : PlannerValidationResult :=
  validateFields (getTrimmedValue (ageInput u))
                 (getTrimmedValue (concernInput u))
                 (getTrimmedValue (emailInput u)).

Definition validateAndShowErrors (focusFirstInvalid : bool) : M Obs bool :=
  u ← this ui;
  let result := validateForm u in
  clearFieldErrors ;;
  if negb (ok result) then
    setStatus (match formError result with
               | Some m => or_str m DEFAULTS.TEXT.STATUS_VALIDATION_ERROR
               | None => DEFAULTS.TEXT.STATUS_VALIDATION_ERROR
               end) true ;;
    let firstInvalidField : option string := None in
    firstInvalidField ←
      match input_and_error (ageInput u) (fieldErrors result) "age" with
      | Some m =>
          dom (fun u => with_inputs
                          ((fun i => setFieldError i (Some m)) <$> ageInput u)
                          (concernInput u) (emailInput u) u) ;;
          mret (first_or firstInvalidField "age")
      | None => mret firstInvalidField
      end;
    firstInvalidField ←
      match input_and_error (concernInput u) (fieldErrors result) "concern" with
      | Some m =>
          dom (fun u => with_inputs (ageInput u)
                          ((fun i => setFieldError i (Some m)) <$> concernInput u)
                          (emailInput u) u) ;;
          mret (first_or firstInvalidField "concern")
      | None => mret firstInvalidField
      end;
    firstInvalidField ←
      match input_and_error (emailInput u) (fieldErrors result) "email" with
      | Some m =>
          dom (fun u => with_inputs (ageInput u) (concernInput u)
                          ((fun i => setFieldError i (Some m)) <$> emailInput u)
                          u) ;;
          mret (first_or firstInvalidField "email")
      | None => mret firstInvalidField
      end;
    match focusFirstInvalid, firstInvalidField with
    | true, Some id => dom (with_focus id)
    | _, _ => mret tt
    end ;;
    call_onEvent "validation_failed" (DFieldErrors (fieldErrors result)) ;;
    mret false
  else
    clearStatus ;;
    mret true.

(** Get payload from the form. Assumes validation has already passed. *)
Definition getPayload_of (u : PlannerUI) : PlannerPayload :=
  let ageMonths := Number (or_str (getTrimmedValue (ageInput u)) (js "0")) in
  let concern := getTrimmedValue (concernInput u) in
  let email := getTrimmedValue (emailInput u) in
  {| age_months := ageMonths;
     concern := concern;
     email := if truthy_str email then Some email else None |}.

Definition getPayload : M Obs PlannerPayload := this (fun a => getPayload_of (ui a)).

(* ------------------------------------------------------------------- *)
(** *** Rendering *)

(** A child handed to [createEl]: nullish children are skipped, others
    become a text node of [String(child)]. *)
Definition text_child (child : jsval) : option jsstring :=
  match child with
  | VUndefined | VNull => None
  | _ => Some (ToString child)
  end.

(** The fragment [renderPlan] builds: heading, steps, disclaimer. *)
Definition plan_fragment (planData : jsval) : list node :=
  let heading := NHeading "plan-heading" DEFAULTS.TEXT.PLAN_HEADING in
  let steps := match get_prop_opt planData "steps" with
               | VArr l => l
               | _ => []
               end in
  let list := if (0 <? length steps)%nat
              then [NList (map text_child steps)] else [] in
  let disclaimer := NParagraph DEFAULTS.TEXT.DISCLAIMER in
  [heading] ++ list ++ [disclaimer].

Definition renderPlan (planData : jsval) : M Obs unit :=
  dom (with_planSection []) ;;
  dom (with_planSection (plan_fragment planData)) ;;
  (* Focus the heading *)
  dom (with_focus "plan-heading").

(** One [<article>] of [renderBundles]' [forEach]. *)
Definition bundle_card (bundle : jsval) : outcome node :=
  match bundle with
  | VUndefined | VNull => Throw engine_TypeError
  | _ =>
      match encodeURIComponent
              (ToString (nullish_or (get_prop bundle "id")
                                    (VStr (js "bundle")))) with
      | Throw e => Throw e
      | Ret idSafe =>
          let title := ToString (nullish_or (get_prop bundle "name")
                                            (VStr (js "Bundle"))) in
          let descText := or_val (get_prop bundle "description") (VStr []) in
          let priceText :=
            if truthy (get_prop bundle "price")
            then VStr (js "Price: " ++ ToString (get_prop bundle "price"))
            else VStr [] in
          let href := or_val (get_prop bundle "href")
                             (VStr (js "/api/bundles/go/" ++ idSafe)) in
          Ret (NBundle idSafe title
                 (if truthy descText then text_child descText else None)
                 (if truthy priceText then text_child priceText else None)
                 (ToString href))
      end
  end.

Fixpoint bundle_cards (arr : list jsval) : outcome (list node) :=
  match arr with
  | [] => Ret []
  | b :: r =>
      match bundle_card b with
      | Throw e => Throw e
      | Ret n =>
          match bundle_cards r with
          | Throw e => Throw e
          | Ret ns => Ret (n :: ns)
          end
      end
  end.

Definition renderBundles (bundles : jsval) : M Obs unit :=
  dom (with_bundlesSection []) ;;
  let arr := match bundles with VArr l => l | _ => [] end in
  if (length arr =? 0)%nat then
    dom (with_bundlesSection [NParagraph DEFAULTS.TEXT.NO_BUNDLES])
  else
    let heading := NHeading "bundles-heading" DEFAULTS.TEXT.BUNDLES_HEADING in
    cards ← lift (bundle_cards arr);
    dom (with_bundlesSection (heading :: cards)).

(* ------------------------------------------------------------------- *)
(** *** Error resolution *)

Definition resolveError (err : jsval) : PlannerResolvedError :=
  if negb (truthy err) then
    {| kind := UNKNOWN;
       message := DEFAULTS.TEXT.STATUS_GENERIC_ERROR;
       raw := None |}
  else if is_str (get_prop err "code") (js "TIMEOUT")
          || is_str (get_prop err "message") (js "timeout") then
    {| kind := TIMEOUT;
       message := DEFAULTS.TEXT.STATUS_TIMEOUT_ERROR;
       raw := Some err |}
  else if instanceof_TypeError err then
    {| kind := NETWORK;
       message := DEFAULTS.TEXT.STATUS_NETWORK_ERROR;
       raw := Some err |}
  else if typeof_number (get_prop err "status") then
    {| kind := SERVER;
       message := DEFAULTS.TEXT.STATUS_GENERIC_ERROR;
       raw := Some err |}
  else
    {| kind := UNKNOWN;
       message := DEFAULTS.TEXT.STATUS_GENERIC_ERROR;
       raw := Some err |}.

(* ------------------------------------------------------------------- *)
(** *** Main submit handler *)

Definition is_submitting (s : PlannerState) : bool :=
  match s with submitting => true | _ => false end.

Definition planRequest (url : jsstring) (payload : PlannerPayload)
    (timeout : N) : request :=
  {| req_url := url; req_method := "POST";
     req_headers := [("Content-Type", "application/json")]%string;
     req_body := Some payload; req_timeoutMs := timeout |}.

Definition bundlesRequest (url : jsstring) (timeout : N) : request :=
  {| req_url := url; req_method := "GET"; req_headers := [];
     req_body := None; req_timeoutMs := timeout |}.

Definition handleSubmit : M Obs unit :=
  preventDefault ;;
  (* Avoid double-submit *)
  st ← this state;
  if is_submitting st then mret tt else
  setState validating ;;
  isValid ← validateAndShowErrors true;
  if negb isValid then
    setState error
  else
  payload ← getPayload;
  call_onEvent "submit" (DPayload payload) ;;
  disableForm ;;
  showSpinner ;;
  setStatus DEFAULTS.TEXT.STATUS_LOADING false ;;
  setState submitting ;;
  try_finally
    (try_catch
       ((* 1) Fetch plan *)
        url ← this planEndpoint;
        timeout ← this timeoutMs;
        planData ← jsonFetch (planRequest url payload timeout);
        renderPlan planData ;;
        call_onEvent "plan_success" (DPlan planData) ;;
        (* 2) Fetch bundles (best-effort) *)
        try_catch
          (endpoint ← this bundlesEndpoint;
           bundlesUrl ← lift (endpoint (concern payload));
           timeout ← this timeoutMs;
           bundlesData ← jsonFetch (bundlesRequest bundlesUrl timeout);
           renderBundles bundlesData ;;
           call_onEvent "bundles_success" (DBundles bundlesData) ;;
           setStatus DEFAULTS.TEXT.STATUS_SUCCESS false ;;
           call_onEvent "success" (DPlanBundles planData bundlesData) ;;
           setState success)
          (fun bundlesErr =>
             renderBundles VNull ;;
             setStatus DEFAULTS.TEXT.STATUS_PARTIAL_BUNDLES_ERROR true ;;
             call_onEvent "bundles_error" (DRaw bundlesErr) ;;
             setState error))
       (fun err =>
          let resolved := resolveError err in
          setStatus (message resolved) true ;;
          call_onEvent "error" (DResolved resolved) ;;
          setState error))
    (hideSpinner ;;
     enableForm ;;
     st ← this state;
     if is_submitting st then
       (* ensure we don't accidentally stay "submitting" *)
       setState idle
     else mret tt).

End PlannerApp.

(* ===================================================================== *)
(** ** A recording sink and a host for running examples *)
(* ===================================================================== *)

(** A sink that only records: it appends each (stage, detail) pair it
    receives to a log and never throws. *)
Definition record_sink : Sink (list event) :=
  fun stage d log => (Ret tt, log ++ [(stage, d)]).





Module ExampleHost.

Definition digit_val (c : N) : option N :=
  if (0x30 <=? c) && (c <=? 0x39) then Some (c - 0x30) else None.

Fixpoint digits_val (acc : N) (s : jsstring) : option N :=
  match s with
  | [] => Some acc
  | c :: r =>
      match digit_val c with
      | Some d => digits_val (10 * acc + d) r
      | None => None
      end
  end.

(** [Number] on blank strings and on unsigned decimal integer literals;
    every other string is taken as not numeric. *)
Definition Number (s : jsstring) : jsnum :=
  match trim s with
  | [] => S754_zero false
  | t => match digits_val 0 t with
         | Some n => num_of_Z (Z.of_N n)
         | None => S754_nan
         end
  end.

(** [String(v)] on strings, booleans, nullish values and integral
    Numbers; [[object Object]] for everything else. *)
Definition ToString (v : jsval) : jsstring :=
  match v with
  | VUndefined => js "undefined"
  | VNull => js "null"
  | VBool true => js "true"
  | VBool false => js "false"
  | VStr s => s
  | VNum (S754_zero _) => js "0"
  | VNum (S754_finite false m e) =>
      if (0 <=? e)%Z then dec (N.shiftl (Npos m) (Z.to_N e))
      else if N.land (Npos m) (N.ones (Z.to_N (- e))) =? 0
           then dec (N.shiftr (Npos m) (Z.to_N (- e)))
           else js "[object Object]"
  | _ => js "[object Object]"
  end.

Definition hex_digit (n : N) : N :=
  if n <? 10 then 0x30 + n else 0x41 + (n - 10).

Definition percent (byte : N) : jsstring :=
  [0x25; hex_digit (byte / 16); hex_digit (byte mod 16)].

(** The characters [encodeURIComponent] leaves as they are. *)
Definition unreserved (c : N) : bool :=
  ((0x41 <=? c) && (c <=? 0x5A)) || ((0x61 <=? c) && (c <=? 0x7A))
  || ((0x30 <=? c) && (c <=? 0x39))
  || existsb (N.eqb c) (js "-_.!~*'()").

Definition utf8 (cp : N) : jsstring :=
  if cp <? 0x80 then percent cp
  else if cp <? 0x800 then
    percent (0xC0 + cp / 64) ++ percent (0x80 + cp mod 64)
  else if cp <? 0x10000 then
    percent (0xE0 + cp / 4096) ++ percent (0x80 + (cp / 64) mod 64)
      ++ percent (0x80 + cp mod 64)
  else
    percent (0xF0 + cp / 262144) ++ percent (0x80 + (cp / 4096) mod 64)
      ++ percent (0x80 + (cp / 64) mod 64) ++ percent (0x80 + cp mod 64).

Definition URIError : jsval :=
  VObj CURIError [prop "message" (VStr (js "URI malformed"))].

Fixpoint encodeURIComponent (s : jsstring) : outcome jsstring :=
  match s with
  | [] => Ret []
  | c :: r =>
      if unreserved c then
        match encodeURIComponent r with
        | Ret t => Ret (c :: t)
        | Throw e => Throw e
        end
      else if (0xDC00 <=? c) && (c <=? 0xDFFF) then Throw URIError
      else if (0xD800 <=? c) && (c <=? 0xDBFF) then
        match r with
        | l :: r' =>
            if (0xDC00 <=? l) && (l <=? 0xDFFF) then
              match encodeURIComponent r' with
              | Ret t =>
                  Ret (utf8 (0x10000 + (c - 0xD800) * 1024 + (l - 0xDC00))
                         ++ t)
              | Throw e => Throw e
              end
            else Throw URIError
        | [] => Throw URIError
        end
      else
        match encodeURIComponent r with
        | Ret t => Ret (utf8 c ++ t)
        | Throw e => Throw e
        end
  end.

#[export] Instance host : Host :=
  Build_Host Number ToString encodeURIComponent.

End ExampleHost.

(* ===================================================================== *)
(** ** The experience layer: widgets fed by planner events *)
(* ===================================================================== *)

(** [v.length] *)
Definition get_length (v : jsval) : jsval :=
  match v with
  | VArr l => VNum (num_of_Z (Z.of_nat (length l)))
  | VStr s => VNum (num_of_Z (Z.of_nat (length s)))
  | _ => get_prop v "length"
  end.

Module GrokQuiz.
Record t : Type := { latestPlan : jsval; latestBundles : jsval }.
Definition syncPlan (plan : jsval) (q : t) : t :=
  {| latestPlan := plan; latestBundles := latestBundles q |}.
Definition syncBundles (bundles : jsval) (q : t) : t :=
  {| latestPlan := latestPlan q; latestBundles := bundles |}.
End GrokQuiz.

Module ChatWidget.
Record t : Type := { latestPlan : jsval; latestBundles : jsval }.
Definition syncPlan (plan : jsval) (c : t) : t :=
  {| latestPlan := plan; latestBundles := latestBundles c |}.
Definition syncBundles (bundles : jsval) (c : t) : t :=
  {| latestPlan := latestPlan c; latestBundles := bundles |}.
End ChatWidget.

Module PriceAlerts.
Record t : Type := { latestBundles : jsval }.
Definition syncFromBundles (bundles : jsval) (_ : t) : t :=
  {| latestBundles := bundles |}.
End PriceAlerts.

Module ReviewForm.
Record t : Type := { latestBundles : jsval }.
Definition syncFromBundles (bundles : jsval) (_ : t) : t :=
  {| latestBundles := bundles |}.
End ReviewForm.

Module RegistryBuilder.

Record RegistryItem : Type := {
  id : jsstring;
  name : jsval;
  note : jsval;
  url : jsval;
  sourceBundleId : jsval
}.

(** [listEl] is [None] when the root has no list element, else the
    items it shows; [stored] is what [save] last put in local storage. *)
Record t : Type := {
  listEl : option (list RegistryItem);
  items : list RegistryItem;
  stored : option (list RegistryItem)
}.

Definition save (r : t) : t :=
  {| listEl := listEl r; items := items r; stored := Some (items r) |}.

(** [render()]: the first statement dereferences [this.listEl]. *)
Definition render (r : t) : outcome unit * t :=
  match listEl r with
  | None => (Throw engine_TypeError, r)
  | Some _ =>
      (Ret tt, {| listEl := Some (items r); items := items r;
                  stored := stored r |})
  end.

Section WithHost.
Context `{Host}.

(** The [forEach] of [syncFromBundles]: items are pushed one by one,
    a nullish element stops it with a TypeError. *)
Fixpoint push_all (bs : list jsval) (r : t) : outcome unit * t :=
  match bs with
  | [] => (Ret tt, r)
  | b :: rest =>
      match b with
      | VUndefined | VNull => (Throw engine_TypeError, r)
      | _ =>
          let item :=
            {| id := js "bundle-" ++ ToString (get_prop b "id");
               name := get_prop b "name";
               note := or_val (get_prop b "description")
                         (or_val (get_prop b "price") (VStr []));
               url := get_prop b "href";
               sourceBundleId := get_prop b "id" |} in
          push_all rest {| listEl := listEl r;
                           items := items r ++ [item];
                           stored := stored r |}
      end
  end.

Definition syncFromBundles (bundles : jsval) (r : t) : outcome unit * t :=
  if negb (truthy bundles) || negb (truthy (get_length bundles)) then
    (Ret tt, r)
  else if (0 <? length (items r))%nat then
    (Ret tt, r)                       (* don't overwrite user list *)
  else
    match bundles with
    | VArr bs =>
        match push_all bs r with
        | (Throw e, r') => (Throw e, r')
        | (Ret _, r') => render (save r')
        end
    | _ => (Throw engine_TypeError, r)  (* forEach is not a function *)
    end.
End WithHost.

End RegistryBuilder.

Module MilestoneTracker.

Record Milestone : Type := {
  id : jsstring;
  label : jsstring;
  done : bool
}.

Record t : Type := {
  listEl : list Milestone;            (* the milestones it shows *)
  milestones : list Milestone;
  stored : option (list Milestone)
}.

(** The [map] of [syncFromPlan]: [label.trim()] needs a string. *)
Fixpoint from_steps (index : N) (steps : list jsval)
  : outcome (list Milestone) :=
  match steps with
  | [] => Ret []
  | VStr label :: rest =>
      match from_steps (index + 1) rest with
      | Ret ms => Ret ({| id := js "plan-" ++ dec (index + 1);
                          label := trim label; done := false |} :: ms)
      | Throw e => Throw e
      end
  | _ :: _ => Throw engine_TypeError
  end.

Definition syncFromPlan (plan : jsval) (m : t) : outcome unit * t :=
  if negb (truthy plan) then (Ret tt, m)
  else match get_prop plan "steps" with
       | VArr steps =>
           if (length steps =? 0)%nat then (Ret tt, m)
           else if (0 <? length (milestones m))%nat then (Ret tt, m)
           else match from_steps 0 steps with
                | Throw e => (Throw e, m)
                | Ret ms =>
                    (* this.save(); this.render(); *)
                    (Ret tt, {| listEl := ms; milestones := ms;
                                stored := Some ms |})
                end
       | _ => (Ret tt, m)
       end.

End MilestoneTracker.

(** class ExperienceApp. A widget is [None] when its elements are not on
    the page; [config_onEvent] is [None] when the option is not given,
    and [delivered] lists what it has been called with. *)
Record ExperienceApp : Type := {
  grokQuiz : option GrokQuiz.t;
  registry : option RegistryBuilder.t;
  milestones : option MilestoneTracker.t;
  priceAlerts : option PriceAlerts.t;
  reviewForm : option ReviewForm.t;
  chat : option ChatWidget.t;
  latestPlan : jsval;
  latestBundles : jsval;
  config_onEvent : option (string -> event -> outcome unit);
  delivered : list (string * event)
}.

(** [detail?.plan], [detail?.bundles] *)
Definition detail_plan (d : detail) : jsval :=
  match d with
  | DPlan p | DPlanBundles p _ => p
  | DRaw v => get_prop_opt v "plan"
  | _ => VUndefined
  end.

Definition detail_bundles (d : detail) : jsval :=
  match d with
  | DBundles b | DPlanBundles _ b => b
  | DRaw v => get_prop_opt v "bundles"
  | _ => VUndefined
  end.

Section Experience.
Context `{Host}.

Definition on_plan_success (d : detail) (x : ExperienceApp)
  : outcome unit * ExperienceApp :=
  let plan := nullish_or (detail_plan d) VNull in
  let quiz := GrokQuiz.syncPlan plan <$> grokQuiz x in
  let upd (ms : option MilestoneTracker.t) (c : option ChatWidget.t) :=
    {| grokQuiz := quiz; registry := registry x; milestones := ms;
       priceAlerts := priceAlerts x; reviewForm := reviewForm x;
       chat := c; latestPlan := plan; latestBundles := latestBundles x;
       config_onEvent := config_onEvent x; delivered := delivered x |} in
  match milestones x with
  | None => (Ret tt, upd None (ChatWidget.syncPlan plan <$> chat x))
  | Some m =>
      match MilestoneTracker.syncFromPlan plan m with
      | (Throw e, m') => (Throw e, upd (Some m') (chat x))
      | (Ret _, m') =>
          (Ret tt, upd (Some m') (ChatWidget.syncPlan plan <$> chat x))
      end
  end.

Definition on_bundles_success (d : detail) (x : ExperienceApp)
  : outcome unit * ExperienceApp :=
  let bundles := nullish_or (detail_bundles d) VNull in
  let upd (r : option RegistryBuilder.t) (rest : bool) :=
    {| grokQuiz := grokQuiz x; registry := r; milestones := milestones x;
       priceAlerts := if rest
                      then PriceAlerts.syncFromBundles bundles <$> priceAlerts x
                      else priceAlerts x;
       reviewForm := if rest
                     then ReviewForm.syncFromBundles bundles <$> reviewForm x
                     else reviewForm x;
       chat := if rest then ChatWidget.syncBundles bundles <$> chat x
               else chat x;
       latestPlan := latestPlan x; latestBundles := bundles;
       config_onEvent := config_onEvent x; delivered := delivered x |} in
  match registry x with
  | None => (Ret tt, upd None true)
  | Some r =>
      match RegistryBuilder.syncFromBundles bundles r with
      | (Throw e, r') => (Throw e, upd (Some r') false)
      | (Ret _, r') => (Ret tt, upd (Some r') true)
      end
  end.

(** [this.config.onEvent?.('planner_event', { stage, detail })] *)
Definition forward (stage : string) (d : detail) (x : ExperienceApp)
  : outcome unit * ExperienceApp :=
  match config_onEvent x with
  | None => (Ret tt, x)
  | Some f =>
      (f "planner_event"%string (stage, d),
       {| grokQuiz := grokQuiz x; registry := registry x;
          milestones := milestones x; priceAlerts := priceAlerts x;
          reviewForm := reviewForm x; chat := chat x;
          latestPlan := latestPlan x; latestBundles := latestBundles x;
          config_onEvent := config_onEvent x;
          delivered := delivered x ++ [("planner_event"%string, (stage, d))] |})
  end.

(** Called from patched PlannerApp.onEvent. *)
Definition handlePlannerEvent (stage : string) (d : detail)
    (x : ExperienceApp) : outcome unit * ExperienceApp :=
  let switch :=
    if String.eqb stage "plan_success" then on_plan_success d x
    else if String.eqb stage "bundles_success" then on_bundles_success d x
    else (Ret tt, x) in
  match switch with
  | (Throw e, x') => (Throw e, x')
  | (Ret _, x') => forward stage d x'
  end.

End Experience.





(* ===================================================================== *)
(** ** The basic-auth static file handler *)
(* ===================================================================== *)

Module StaticServer.

(** [segments.join('/')] *)
Fixpoint join_slash (segments : list jsstring) : jsstring :=
  match segments with
  | [] => []
  | [s] => s
  | s :: rest => s ++ [0x2F] ++ join_slash rest
  end.

Definition is_dot (s : jsstring) : bool := bool_decide (s = [0x2E]).
Definition is_dotdot (s : jsstring) : bool := bool_decide (s = [0x2E; 0x2E]).

(** Node's [normalizeString], segment by segment: [res] is the stack of
    kept segments, last one first. Empty and [.] segments are dropped;
    [..] pops a kept segment, or is kept itself when the path is
    relative and there is nothing but [..] left to pop. *)
Fixpoint normalizeString (allowAboveRoot : bool) (res : list jsstring)
    (segments : list jsstring) : list jsstring :=
  match segments with
  | [] => rev res
  | s :: rest =>
      if bool_decide (s = []) || is_dot s then
        normalizeString allowAboveRoot res rest
      else if is_dotdot s then
        match res with
        | top :: below =>
            if is_dotdot top then
              normalizeString allowAboveRoot
                (if allowAboveRoot then s :: res else res) rest
            else normalizeString allowAboveRoot below rest
        | [] =>
            normalizeString allowAboveRoot
              (if allowAboveRoot then [s] else []) rest
        end
      else normalizeString allowAboveRoot (s :: res) rest
  end.

(** [path.posix.normalize(p)] *)
Definition normalize (p : jsstring) : jsstring :=
  match p with
  | [] => [0x2E]
  | c :: _ =>
      let isAbsolute := c =? 0x2F in
      let trailingSeparator := List.last p 0 =? 0x2F in
      let body :=
        join_slash (normalizeString (negb isAbsolute) []
                      (split_on 0x2F p)) in
      match body with
      | [] =>
          if isAbsolute then [0x2F]
          else if trailingSeparator then [0x2E; 0x2F] else [0x2E]
      | _ :: _ =>
          let body := if trailingSeparator then body ++ [0x2F] else body in
          if isAbsolute then 0x2F :: body else body
      end
  end.

(** [path.join(...args)] *)
Definition path_join (args : list jsstring) : jsstring :=
  match filter (fun a => truthy_str a) args with
  | [] => [0x2E]
  | parts => normalize (join_slash parts)
  end.

(** [s.replace(/\.\./g, '')]: every match, left to right, is dropped. *)
Fixpoint remove_dotdot (s : jsstring) : jsstring :=
  match s with
  | [] => []
  | a :: t =>
      match t with
      | b :: r =>
          if (a =? 0x2E) && (b =? 0x2E) then remove_dotdot r
          else a :: remove_dotdot t
      | [] => [a]
      end
  end.

Record Request : Type := {
  authorization : option jsstring;    (* req.headers.authorization *)
  url : jsstring                      (* req.url *)
}.

Inductive Body : Type :=
| Data (bytes : list Byte.byte)
| Text (s : jsstring).

Record Response : Type := {
  statusCode : N;
  headers : list (string * jsstring);
  body : Body
}.

(** [arr[i]] *)
Definition index {A} (l : list A) (i : nat) : option A := nth_error l i.

(** [s.toLowerCase()] on the ASCII letters. *)
Definition toLowerCase (s : jsstring) : jsstring :=
  map (fun c => if (0x41 <=? c) && (c <=? 0x5A) then c + 0x20 else c) s.

(** Index of the last [.] of [s], if any. *)
Fixpoint last_dot (i : nat) (s : jsstring) : option nat :=
  match s with
  | [] => None
  | c :: r =>
      match last_dot (S i) r with
      | Some j => Some j
      | None => if c =? 0x2E then Some i else None
      end
  end.

Fixpoint drop_trailing_slashes_rev (r : jsstring) : jsstring :=
  match r with
  | c :: r' => if c =? 0x2F then drop_trailing_slashes_rev r' else r
  | [] => []
  end.

(** [path.extname(p)]: from the last [.] of the last portion of the
    path; empty when that portion has no [.], starts with its only
    [.], or is [..]. *)
Definition extname (p : jsstring) : jsstring :=
  let p := rev (drop_trailing_slashes_rev (rev p)) in
  let base := List.last (split_on 0x2F p) [] in
  if is_dotdot base then []
  else match last_dot 0 base with
       | None | Some O => []
       | Some i => drop i base
       end.

Section Handler.
(** [Buffer.from(b64, 'base64').toString()] *)
Variable base64_decode : jsstring -> jsstring.
(** [process.cwd()], [process.env.BASIC_AUTH_USERNAME] and
    [process.env.BASIC_AUTH_PASSWORD] *)
Variable cwd : jsstring.
Variables USER PASS : option jsstring.
(** The file system: [Some data] for a path that exists and is a
    regular file, as [existsSync], [statSync] and [readFileSync] see it. *)
Variable fs : jsstring -> option (list Byte.byte).
(** What differs between the two copies of the handler. *)
Variable mimeTypes : list (jsstring * jsstring).
Variable realm : jsstring.
Variable authMessage : jsstring.

Definition authenticated (req : Request) : bool :=
  let auth := match authorization req with
              | Some a => or_str a []
              | None => []
              end in
  let b64 := match index (split_on 0x20 auth) 1 with
             | Some p => or_str p []
             | None => []
             end in
  let parts := split_on 0x3A (base64_decode b64) in
  let username := index parts 0 in
  let password := index parts 1 in
  bool_decide (username = USER) && bool_decide (password = PASS).

(** The path the handler looks up. *)
Definition filePath (req : Request) : jsstring :=
  let filePath :=
    path_join [cwd; js "frontend"; js "public";
               if bool_decide (url req = [0x2F]) then js "index.html"
               else url req] in
  (* prevent directory traversal *)
  remove_dotdot filePath.

Definition lookup_mime (ext : jsstring) : option jsstring :=
  snd <$> find (fun kv => bool_decide (fst kv = ext)) mimeTypes.

Definition handler (req : Request) : Response :=
  if authenticated req then
    match fs (filePath req) with
    | Some data =>
        let ext := toLowerCase (extname (filePath req)) in
        let type := default (js "application/octet-stream")
                            (lookup_mime ext) in
        {| statusCode := 200;
           headers := [("Content-Type"%string, type)];
           body := Data data |}
    | None =>
        {| statusCode := 404; headers := [];
           body := Text (js "Not Found") |}
    end
  else
    {| statusCode := 401;
       headers := [("WWW-Authenticate"%string,
                    js "Basic realm=" ++ [0x22] ++ realm ++ [0x22])];
       body := Text authMessage |}.

End Handler.

(** The first copy of the handler. *)
Definition mimeTypes1 : list (jsstring * jsstring) :=
  [(js ".html", js "text/html"); (js ".css", js "text/css");
   (js ".js", js "application/javascript");
   (js ".json", js "application/json"); (js ".png", js "image/png");
   (js ".jpg", js "image/jpeg"); (js ".jpeg", js "image/jpeg");
   (js ".gif", js "image/gif"); (js ".svg", js "image/svg+xml");
   (js ".txt", js "text/plain")].

Definition handler1 base64_decode cwd USER PASS fs : Request -> Response :=
  handler base64_decode cwd USER PASS fs mimeTypes1
          (js "Protected Area") (js "Authentication required").

(** The second copy of the handler. *)
Definition mimeTypes2 : list (jsstring * jsstring) :=
  [(js ".html", js "text/html"); (js ".js", js "text/javascript");
   (js ".css", js "text/css"); (js ".png", js "image/png");
   (js ".jpg", js "image/jpeg"); (js ".jpeg", js "image/jpeg");
   (js ".gif", js "image/gif"); (js ".svg", js "image/svg+xml");
   (js ".ico", js "image/x-icon"); (js ".txt", js "text/plain")].

Definition handler2 base64_decode cwd USER PASS fs : Request -> Response :=
  handler base64_decode cwd USER PASS fs mimeTypes2
          (js "Protected") (js "Auth required").

(** [p] names something inside the directory [root]. *)
Definition within (root p : jsstring) : bool :=
  bool_decide (take (length root + 1) p = root ++ [0x2F])
  && negb (existsb is_dotdot (split_on 0x2F p)).

(** The public root of a deployment in [cwd]. *)
Definition public_root (cwd : jsstring) : jsstring :=
  path_join [cwd; js "frontend"; js "public"].

End StaticServer.

(* ===================================================================== *)
(** ** Raw failures, as [resolveError] tells them apart *)
(* ===================================================================== *)




(** The rejection of a [fetch] cut by the abort signal. *)
Definition is_abort (e : jsval) : bool :=
  truthy e && is_str (get_name e) (js "AbortError").

(* ===================================================================== *)
(** ** Submission attempts, by outcome *)
(* ===================================================================== *)



Section Attempt.
Context `{Host} {Obs : Type}.








End Attempt.







(* ===================================================================== *)
(** ** A controller before and after the wiring *)
(* ===================================================================== *)

Section WiringModel.
Context {A B : Type}.
Variable orig : Sink A.
Variable extra : Sink B.
Variable Inv : B -> Prop.




End WiringModel.

(* ===================================================================== *)
(** ** Example worlds *)
(* ===================================================================== *)

Module Examples.
Import ExampleHost.

Definition input (v : string) : option InputEl :=
  Some {| value := js v; shownError := None |}.

Definition page (age concern email : string) : PlannerUI :=
  {| planSection := []; bundlesSection := [];
     statusText := []; statusClass := "status";
     spinnerHidden := true; ariaBusy := false;
     submitDisabled := false; focused := None;
     ageInput := input age; concernInput := input concern;
     emailInput := input email |}.

(** A controller as the bootstrap makes it, with the given sink. *)
Definition planner {Obs} (sink : Sink Obs) (st : PlannerState)
    (age concern email : string) : PlannerApp Obs :=
  {| state := st; onEvent := sink;
     planEndpoint := DEFAULTS.API.PLAN;
     bundlesEndpoint := DEFAULTS.API.BUNDLES;
     timeoutMs := DEFAULTS.API.TIMEOUT_MS;
     ui := page age concern email |}.

Definition world {Obs} (a : PlannerApp Obs) (o : Obs)
    (net : request -> fetch_outcome) : World Obs :=
  {| app := a; obs := o; network := net; calls := [];
     defaultPrevented := false |}.

Definition plan_AB : jsval :=
  VObj CObject [prop "steps" (VArr [VStr (js "Step 1"); VStr (js "Step 2")])].

Definition bundles_A : jsval :=
  VArr [VObj CObject [prop "id" (VNum (num_of_Z 1));
                      prop "name" (VStr (js "Kit A"));
                      prop "price" (VStr (js "$10"))]].

Definition is_post (r : request) : bool := String.eqb (req_method r) "POST".

(** Scenario A: both calls succeed. *)
Definition net_A (r : request) : fetch_outcome :=
  if is_post r then FetchResponse 200 (BodyJson plan_AB)
  else FetchResponse 200 (BodyJson bundles_A).




(** Worlds with the recording sink. *)
Definition recorded (st : PlannerState) (age concern email : string)
    (net : request -> fetch_outcome) : World (list event) :=
  world (planner record_sink st age concern email) [] net.

Definition scenario_C := recorded idle "12" "ok" "" net_A.
Definition in_flight := recorded submitting "12" "teething pain" "" net_A.







(** A deployment of the static handler: one file in the public root,
    one next to it in the project directory. *)
Definition cwd : jsstring := js "/var/task".

Definition disk (p : jsstring) : option (list Byte.byte) :=
  if bool_decide (p = js "/var/task/frontend/public/index.html")
  then Some [Byte.x3c; Byte.x68; Byte.x31; Byte.x3e]
  else if bool_decide (p = js "/var/task/package.json")
  then Some [Byte.x7b; Byte.x7d]
  else None.

(** The decoder, on the one header value the examples send. *)
Definition decode (b64 : jsstring) : jsstring :=
  if bool_decide (b64 = js "dXNlcjpwYXNz") then js "user:pass" else [].

Definition authorized (u : string) : StaticServer.Request :=
  {| StaticServer.authorization := Some (js "Basic dXNlcjpwYXNz");
     StaticServer.url := js u |}.

Definition serve1 : StaticServer.Request -> StaticServer.Response :=
  StaticServer.handler1 decode cwd (Some (js "user")) (Some (js "pass")) disk.
Definition serve2 : StaticServer.Request -> StaticServer.Response :=
  StaticServer.handler2 decode cwd (Some (js "user")) (Some (js "pass")) disk.

End Examples.

(* ===================================================================== *)
(** ** What a regular expression matches *)
(* ===================================================================== *)

(** The strings a regular expression denotes. *)
Inductive matches : RegExp.regex -> jsstring -> Prop :=
| MEps : matches RegExp.Eps []
| MClass (p : N -> bool) (c : N) : p c = true -> matches (RegExp.Class p) [c]
| MSeq (a b : RegExp.regex) (s t : jsstring) :
    matches a s -> matches b t -> matches (RegExp.Seq a b) (s ++ t)
| MAltL (a b : RegExp.regex) (s : jsstring) :
    matches a s -> matches (RegExp.Alt a b) s
| MAltR (a b : RegExp.regex) (s : jsstring) :
    matches b s -> matches (RegExp.Alt a b) s
| MStarNil (a : RegExp.regex) : matches (RegExp.Star a) []
| MStarCons (a : RegExp.regex) (s t : jsstring) :
    matches a s -> matches (RegExp.Star a) t ->
    matches (RegExp.Star a) (s ++ t).

(** [[^\s@]]: a code unit that is neither white space nor [@]. *)
Definition plain_char (c : N) : bool := negb (is_space c || (c =? 0x40)).

(** local [@] domain [.] tld, the three parts non-empty, without white
    space and without [@]; the domain may itself contain dots. *)
Definition email_shape (s : jsstring) : Prop :=
  exists l d t : jsstring,
    s = l ++ [0x40] ++ d ++ [0x2E] ++ t
    /\ l <> [] /\ d <> [] /\ t <> []
    /\ forallb plain_char (l ++ d ++ t) = true.

(** [s'] is [s] with white space around it. *)
Definition padded (s s' : jsstring) : Prop :=
  exists l r, forallb is_space l = true /\ forallb is_space r = true
              /\ s' = l ++ s ++ r.

(* ===================================================================== *)
(** ** Paths with two dots in a row *)
(* ===================================================================== *)

(** [s.includes('..')] *)
Fixpoint has_dotdot (s : jsstring) : bool :=
  match s with
  | [] => false
  | a :: t =>
      match t with
      | b :: _ => ((a =? 0x2E) && (b =? 0x2E)) || has_dotdot t
      | [] => false
      end
  end.

(* ===================================================================== *)
(** ** The page after validation, in closed form *)
(* ===================================================================== *)

Section ValidatedPage.
Context `{Host}.

(** The first present input, in the order age, concern, email, for
    which the validator has a message. *)
Definition first_invalid (u : PlannerUI) (fe : gmap string jsstring)
  : option string :=
  match input_and_error (ageInput u) fe "age",
        input_and_error (concernInput u) fe "concern",
        input_and_error (emailInput u) fe "email" with
  | Some _, _, _ => Some "age"%string
  | None, Some _, _ => Some "concern"%string
  | None, None, Some _ => Some "email"%string
  | None, None, None => None
  end.

(** The page [validateAndShowErrors] leaves behind. *)
Definition validated_ui (focusFirstInvalid : bool) (u : PlannerUI)
  : PlannerUI :=
  let result := validateForm u in
  let fe := fieldErrors result in
  let shown (k : string) (i : InputEl) := setFieldError i (fe !! k) in
  let u1 := with_inputs (shown "age"%string <$> ageInput u)
                        (shown "concern"%string <$> concernInput u)
                        (shown "email"%string <$> emailInput u) u in
  if ok result then
    with_status DEFAULTS.TEXT.STATUS_IDLE DEFAULTS.CSS.STATUS_NEUTRAL u1
  else
    let u2 := with_status DEFAULTS.TEXT.STATUS_VALIDATION_ERROR
                          DEFAULTS.CSS.STATUS_ERROR u1 in
    match (if focusFirstInvalid then first_invalid u fe else None) with
    | Some id => with_focus id u2
    | None => u2
    end.

End ValidatedPage.

(* ===================================================================== *)
(** ** PlannerApp: the rest of the class *)
(* ===================================================================== *)

Section PlannerAppRest.
Context `{Host} {Obs : Type}.

(** [resetUI()] *)
Definition resetUI : M Obs unit :=
  clearStatus ;;
  hideSpinner ;;
  clearFieldErrors ;;
  setState idle.

(** The listener [init()] puts on the three inputs' [blur]:
    live field-level validation. *)
Definition blurHandler : M Obs unit :=
  st ← this state;
  if is_submitting st then mret tt
  else
    validateAndShowErrors false ;;
    mret tt.

(** The [finally] block of [handleSubmit]. *)
Definition submit_finally : M Obs unit :=
  hideSpinner ;;
  enableForm ;;
  st ← this state;
  if is_submitting st then
    setState idle
  else mret tt.

(** The [try] statement of [handleSubmit], with its two [catch] blocks
    and its [finally] block. *)
Definition submit_try (payload : PlannerPayload) : M Obs unit :=
  try_finally
    (try_catch
       (url ← this planEndpoint;
        timeout ← this timeoutMs;
        planData ← jsonFetch (planRequest url payload timeout);
        renderPlan planData ;;
        call_onEvent "plan_success" (DPlan planData) ;;
        try_catch
          (endpoint ← this bundlesEndpoint;
           bundlesUrl ← lift (endpoint (concern payload));
           timeout ← this timeoutMs;
           bundlesData ← jsonFetch (bundlesRequest bundlesUrl timeout);
           renderBundles bundlesData ;;
           call_onEvent "bundles_success" (DBundles bundlesData) ;;
           setStatus DEFAULTS.TEXT.STATUS_SUCCESS false ;;
           call_onEvent "success" (DPlanBundles planData bundlesData) ;;
           setState success)
          (fun bundlesErr =>
             renderBundles VNull ;;
             setStatus DEFAULTS.TEXT.STATUS_PARTIAL_BUNDLES_ERROR true ;;
             call_onEvent "bundles_error" (DRaw bundlesErr) ;;
             setState error))
       (fun err =>
          let resolved := resolveError err in
          setStatus (message resolved) true ;;
          call_onEvent "error" (DResolved resolved) ;;
          setState error))
    submit_finally.


(** What a run leaves alone: the controller's configuration, the
    network, the values typed into the form; the call list only grows. *)
Definition framed (w w' : World Obs) : Prop :=
  onEvent (app w') = onEvent (app w)
  /\ planEndpoint (app w') = planEndpoint (app w)
  /\ bundlesEndpoint (app w') = bundlesEndpoint (app w)
  /\ timeoutMs (app w') = timeoutMs (app w)
  /\ network w' = network w
  /\ input_value (ageInput (ui (app w'))) = input_value (ageInput (ui (app w)))
  /\ input_value (concernInput (ui (app w')))
     = input_value (concernInput (ui (app w)))
  /\ input_value (emailInput (ui (app w')))
     = input_value (emailInput (ui (app w)))
  /\ exists more, calls w' = calls w ++ more.

(** A statement that keeps to that frame from every world. *)
Definition keeps {X : Type} (m : M Obs X) : Prop :=
  forall w, framed w (snd (m w)).

End PlannerAppRest.

(* ===================================================================== *)
(** ** Seeding the widgets, in closed form *)
(* ===================================================================== *)

(** [v == null] *)
Definition nullish (v : jsval) : bool :=
  match v with VUndefined | VNull => true | _ => false end.

Section Seeds.
Context `{Host}.

(** The registry item [syncFromBundles] makes of one bundle. *)
Definition item_of (b : jsval) : RegistryBuilder.RegistryItem :=
  {| RegistryBuilder.id := js "bundle-" ++ ToString (get_prop b "id");
     RegistryBuilder.name := get_prop b "name";
     RegistryBuilder.note := or_val (get_prop b "description")
                               (or_val (get_prop b "price") (VStr []));
     RegistryBuilder.url := get_prop b "href";
     RegistryBuilder.sourceBundleId := get_prop b "id" |}.

End Seeds.



(* ===================================================================== *)
(** ** The experience layer's own fetch wrapper *)
(* ===================================================================== *)

Module ExperienceLayer.
Section Fetch.
(** The [SyntaxError] that [JSON.parse] throws. *)
Variable SyntaxError : jsval.

(** [jsonFetch] of the experience layer once [fetch] has settled: it has
    no [catch], and an empty body is [{}]. *)
Definition jsonFetch_result (o : fetch_outcome) : outcome jsval :=
  match o with
  | FetchRejected e => Throw e
  | FetchResponse status body =>
      if negb (res_ok status) then
        let message := js "HTTP " ++ dec status in
        let message :=
          match body with
          | BodyJson body =>
              if truthy body && typeof_string (get_prop body "message")
              then match get_prop body "message" with
                   | VStr m => message ++ js ": " ++ m
                   | _ => message
                   end
              else message
          | BodyEmpty | BodyMalformed | BodyAborted => message
          end in
        Throw (VObj CError
                 [prop "message" (VStr message);
                  prop "status" (VNum (num_of_Z (Z.of_N status)))])
      else
        match body with
        | BodyAborted => Throw AbortError
        | BodyEmpty => Ret (VObj CObject [])
        | BodyJson v => Ret v
        | BodyMalformed => Throw SyntaxError
        end
  end.

End Fetch.
End ExperienceLayer.

(** Sinks that log what they receive and throw: one on the
    announcement of [submitting], one on a given stage. *)
Definition throws_on_submitting : Sink (list event) :=
  fun stage d log =>
    (match d with
     | DState submitting => Throw (new_Error (js "sink failed"))
     | _ => Ret tt
     end, log ++ [(stage, d)]).

Definition throwing_at (stage0 : string) (e : jsval) : Sink (list event) :=
  fun stage d log =>
    (if String.eqb stage stage0 then Throw e else Ret tt,
     log ++ [(stage, d)]).

(** Scenario A with each of them. *)
Definition wedged : World (list event) :=
  Examples.world
    (Examples.planner throws_on_submitting idle "12" "teething pain" "")
    [] Examples.net_A.

Definition interrupted : World (list event) :=
  Examples.world
    (Examples.planner (throwing_at "plan_success" engine_TypeError)
       idle "12" "teething pain" "")
    [] Examples.net_A.

(** A registry with its list element and nothing in it, and what the
    examples deliver to it. *)
Definition empty_registry : RegistryBuilder.t :=
  {| RegistryBuilder.listEl := Some [];
     RegistryBuilder.items := [];
     RegistryBuilder.stored := None |}.

Definition kit_A : jsval :=
  VObj CObject [prop "id" (VNum (num_of_Z 1));
                prop "name" (VStr (js "Kit A"));
                prop "price" (VStr (js "$10"))].

(** A decoder for a header that carries a user name and no password. *)
Definition decode_bare (b64 : jsstring) : jsstring :=
  if bool_decide (b64 = js "dXNlcg==") then js "user" else [].

Definition bare_username : StaticServer.Request :=
  {| StaticServer.authorization := Some (js "Basic dXNlcg==");
     StaticServer.url := js "/" |}.

(* ===================================================================== *)
(** ** Proof automation for runs of the handler *)
(* ===================================================================== *)


(** Unfold one layer of the statement combinators. *)
Ltac run_step :=
  cbv beta iota delta
    [mbind mret M_bind M_ret this dom call_onEvent preventDefault jsonFetch
     lift try_catch try_finally setState setStatus clearStatus
     showSpinner hideSpinner disableForm enableForm clearFieldErrors
     renderPlan getPayload set_app set_ui set_state record_sink];
  cbv zeta;
  cbn [app obs network calls defaultPrevented state onEvent planEndpoint
       bundlesEndpoint timeoutMs ui fst snd].

(** Run the statement combinators on a world given field by field, page
    included, computing the records as they are built. *)
Ltac run_flat :=
  cbv beta iota zeta delta
    [mbind mret M_bind M_ret this dom call_onEvent preventDefault jsonFetch
     lift try_catch try_finally setState setStatus clearStatus
     showSpinner hideSpinner disableForm enableForm clearFieldErrors
     renderPlan getPayload set_app set_ui set_state
     with_inputs with_status with_focus with_spinner with_submitDisabled
     with_planSection with_bundlesSection
     app obs network calls defaultPrevented
     state onEvent planEndpoint bundlesEndpoint timeoutMs ui
     planSection bundlesSection statusText statusClass spinnerHidden
     ariaBusy submitDisabled focused ageInput concernInput emailInput
     fst snd].

(** Read the fields of a world that is given as a record. *)
Ltac world_fields :=
  cbn [app obs network calls defaultPrevented state onEvent planEndpoint
       bundlesEndpoint timeoutMs ui fst snd negb].



(* ===================================================================== *)
(** * Properties *)
(* ===================================================================== *)

(** ** Strings and numbers *)

Lemma trimStart_idem (s : jsstring) : trimStart (trimStart s) = trimStart s.
Proof.
  induction s as [|c r IH]; simpl; [reflexivity|].
  destruct (is_space c) eqn:E; [exact IH|].
  simpl. rewrite E. reflexivity.
Qed.

Lemma trimStart_app_keep (s t : jsstring) :
  trimStart s <> [] -> trimStart (s ++ t) = trimStart s ++ t.
Proof.
  induction s as [|c r IH]; simpl; [congruence|].
  destruct (is_space c); [exact IH | reflexivity].
Qed.

(** Once the leading blanks are gone, trimming the end leaves the head
    in place. *)
Lemma trimStart_trimEnd_head (s : jsstring) :
  trimStart s = s -> trimStart (trimEnd s) = trimEnd s.
Proof.
  destruct s as [|c r]; [reflexivity|].
  simpl. destruct (is_space c) eqn:E.
  - intros Hs. exfalso.
    assert (Hl : (length (trimStart r) <= length r)%nat).
    { clear. induction r as [|d r IH]; simpl; [lia|].
      destruct (is_space d); simpl; lia. }
    rewrite Hs in Hl. simpl in Hl. lia.
  - intros _. unfold trimEnd.
    change (rev (c :: r)) with (rev r ++ [c]).
    destruct (trimStart (rev r)) eqn:Er.
    + assert (Hk : forall l, trimStart l = [] ->
                 trimStart (l ++ [c]) = [c]).
      { clear -E. induction l as [|d l IH]; simpl.
        - rewrite E. reflexivity.
        - destruct (is_space d); [exact IH | congruence]. }
      rewrite (Hk _ Er). simpl. rewrite E. reflexivity.
    + rewrite trimStart_app_keep by (rewrite Er; congruence).
      rewrite Er. rewrite rev_app_distr. simpl. rewrite E. reflexivity.
Qed.

Lemma trim_idem (s : jsstring) : trim (trim s) = trim s.
Proof.
  unfold trim.
  rewrite (trimStart_trimEnd_head (trimStart s) (trimStart_idem s)).
  unfold trimEnd. rewrite rev_involutive, trimStart_idem. reflexivity.
Qed.

Lemma SFcompare_antisym (x y : spec_float) :
  SFcompare y x = CompOpp <$> SFcompare x y.
Proof.
  destruct x as [sx|sx| |sx mx ex], y as [sy|sy| |sy my ey]; simpl;
    try reflexivity;
    try (destruct sx; reflexivity); try (destruct sy; reflexivity);
    try (destruct sx, sy; reflexivity).
  destruct sx, sy; simpl; try reflexivity;
    rewrite (Z.compare_antisym ex ey);
    destruct (ex ?= ey)%Z; simpl; try reflexivity;
    pose proof (Pos.compare_cont_antisym mx my Eq) as P; simpl in P;
    rewrite <- P; destruct (Pos.compare_cont Eq mx my); reflexivity.
Qed.

(** On Numbers that are not NaN, [not (x < y)] is [y <= x]. *)
Lemma num_not_lt_le (x y : jsnum) :
  x <> S754_nan -> y <> S754_nan -> num_lt x y = false -> num_le y x = true.
Proof.
  unfold num_lt, num_le, SFltb, SFleb. intros Hx Hy.
  rewrite (SFcompare_antisym x y).
  destruct (SFcompare x y) as [[]|] eqn:E; simpl; try congruence.
  destruct x, y; simpl in E; congruence.
Qed.

Lemma isFinite_not_nan (x : jsnum) : Number_isFinite x = true -> x <> S754_nan.
Proof. destruct x; simpl; congruence. Qed.

(** ** The validator and the payload *)

Section ValidationFacts.
Context `{Host}.

Lemma ok_no_errors (a c e : jsstring) :
  ok (validateFields a c e) = true <->
  fieldErrors (validateFields a c e) = ∅.
Proof.
  unfold validateFields; cbn [ok fieldErrors].
  rewrite Nat.eqb_eq, length_zero_iff_nil. apply map_to_list_empty_iff.
Qed.


(** What a passing validation says about the three values. *)
Lemma validateFields_ok_inv (a c e : jsstring) :
  ok (validateFields a c e) = true ->
  truthy_str (trim a) = true
  /\ Number_isFinite (Number (trim a)) = true
  /\ num_le (Number (trim a)) (S754_zero false) = false
  /\ num_lt (Number (trim a)) DEFAULTS.VALIDATION.MIN_AGE_MONTHS = false
  /\ num_gt (Number (trim a)) DEFAULTS.VALIDATION.MAX_AGE_MONTHS = false
  /\ truthy_str (trim c) = true
  /\ (length (trim c) <? DEFAULTS.VALIDATION.MIN_CONCERN_LEN)%nat = false
  /\ (DEFAULTS.VALIDATION.MAX_CONCERN_LEN <? length (trim c))%nat = false
  /\ (truthy_str (trim e) = true ->
      RegExp.test_anchored basicEmailRegex (trim e) = true).
Proof.
  intros Hok. apply ok_no_errors in Hok.
  unfold validateFields in Hok; cbn [fieldErrors] in Hok.
  destruct (truthy_str (trim a)) eqn:Ea; cbn [negb] in Hok.
  2:{ repeat match type of Hok with
             | context [if ?b then _ else _] => destruct b
             end; exfalso; revert Hok; apply insert_non_empty. }
  destruct (Number_isFinite (Number (trim a))) eqn:Ef; cbn [negb orb] in Hok.
  2:{ repeat match type of Hok with
             | context [if ?b then _ else _] => destruct b
             end; exfalso; revert Hok; apply insert_non_empty. }
  destruct (num_le (Number (trim a)) (S754_zero false)) eqn:Ez.
  1:{ repeat match type of Hok with
             | context [if ?b then _ else _] => destruct b
             end; exfalso; revert Hok; apply insert_non_empty. }
  destruct (num_lt (Number (trim a)) DEFAULTS.VALIDATION.MIN_AGE_MONTHS)
    eqn:Emin; cbn [orb] in Hok.
  1:{ repeat match type of Hok with
             | context [if ?b then _ else _] => destruct b
             end; exfalso; revert Hok; apply insert_non_empty. }
  destruct (num_gt (Number (trim a)) DEFAULTS.VALIDATION.MAX_AGE_MONTHS)
    eqn:Emax.
  1:{ repeat match type of Hok with
             | context [if ?b then _ else _] => destruct b
             end; exfalso; revert Hok; apply insert_non_empty. }
  destruct (truthy_str (trim c)) eqn:Ec; cbn [negb] in Hok.
  2:{ repeat match type of Hok with
             | context [if ?b then _ else _] => destruct b
             end; exfalso; revert Hok; apply insert_non_empty. }
  destruct (length (trim c) <? DEFAULTS.VALIDATION.MIN_CONCERN_LEN)%nat
    eqn:Elo.
  1:{ repeat match type of Hok with
             | context [if ?b then _ else _] => destruct b
             end; exfalso; revert Hok; apply insert_non_empty. }
  destruct (DEFAULTS.VALIDATION.MAX_CONCERN_LEN <? length (trim c))%nat
    eqn:Ehi.
  1:{ repeat match type of Hok with
             | context [if ?b then _ else _] => destruct b
             end; exfalso; revert Hok; apply insert_non_empty. }
  repeat split; try reflexivity.
  intros Ee. rewrite Ee in Hok.
  destruct (RegExp.test_anchored basicEmailRegex (trim e));
    [reflexivity|].
  exfalso; revert Hok; apply insert_non_empty.
Qed.

(** The payload of a form that holds values the validator accepts. *)
Lemma payload_of_valid (u : PlannerUI) (a c e : jsstring) :
  trim a = getTrimmedValue (ageInput u) ->
  trim c = getTrimmedValue (concernInput u) ->
  trim e = getTrimmedValue (emailInput u) ->
  ok (validateFields a c e) = true ->
  Number_isFinite (age_months (getPayload_of u)) = true
  /\ num_le DEFAULTS.VALIDATION.MIN_AGE_MONTHS
            (age_months (getPayload_of u)) = true
  /\ num_le (age_months (getPayload_of u))
            DEFAULTS.VALIDATION.MAX_AGE_MONTHS = true
  /\ (3 <= length (concern (getPayload_of u)) <= 500)%nat.
Proof.
  intros Ha Hc He Hok.
  destruct (validateFields_ok_inv a c e Hok)
    as (Ta & Fin & _ & Hmin & Hmax & _ & Hlo & Hhi & _).
  unfold getPayload_of; cbn [age_months concern].
  rewrite <- Ha, <- Hc. unfold or_str. rewrite Ta.
  pose proof (isFinite_not_nan _ Fin) as Hnan.
  repeat split.
  - exact Fin.
  - apply num_not_lt_le; [exact Hnan | discriminate | exact Hmin].
  - apply num_not_lt_le; [discriminate | exact Hnan | exact Hmax].
  - apply Nat.ltb_ge in Hlo. exact Hlo.
  - apply Nat.ltb_ge in Hhi. exact Hhi.
Qed.

(** C10. When [validateFields] accepts the three inputs of the form,
    given raw or given trimmed as the controller passes them, the
    payload [getPayload] builds from the form has a finite
    [age_months] between 1 and 600, has as [concern] the trimmed
    concern of 3 to 500 code units, and has the [email] key, holding
    the trimmed email, exactly when the trimmed email is not empty. *)
Theorem valid_inputs_give_wellformed_payload (u : PlannerUI) :
  ok (validateFields (input_value (ageInput u))
                     (input_value (concernInput u))
                     (input_value (emailInput u))) = true
  \/ ok (validateForm u) = true ->
  let p := getPayload_of u in
  Number_isFinite (age_months p) = true
  /\ num_le DEFAULTS.VALIDATION.MIN_AGE_MONTHS (age_months p) = true
  /\ num_le (age_months p) DEFAULTS.VALIDATION.MAX_AGE_MONTHS = true
  /\ concern p = trim (input_value (concernInput u))
  /\ (3 <= length (concern p) <= 500)%nat
  /\ (is_Some (email p) <-> trim (input_value (emailInput u)) <> [])
  /\ (forall m, email p = Some m -> m = trim (input_value (emailInput u))).
Proof.
  intros Hok p.
  assert (Hnum : Number_isFinite (age_months p) = true
                 /\ num_le DEFAULTS.VALIDATION.MIN_AGE_MONTHS
                           (age_months p) = true
                 /\ num_le (age_months p)
                           DEFAULTS.VALIDATION.MAX_AGE_MONTHS = true
                 /\ (3 <= length (concern p) <= 500)%nat).
  { destruct Hok as [Hok|Hok].
    - eapply payload_of_valid; [| | |exact Hok]; reflexivity.
    - eapply payload_of_valid; [| | |exact Hok];
        unfold getTrimmedValue; apply trim_idem. }
  destruct Hnum as (F & Lo & Hi & Len).
  repeat split; try assumption; try (apply Len).
  - subst p. unfold getPayload_of; cbn [email].
    unfold getTrimmedValue.
    destruct (trim (input_value (emailInput u))); simpl;
      [intros [m Hm]; discriminate | congruence].
  - subst p. unfold getPayload_of; cbn [email].
    unfold getTrimmedValue.
    destruct (trim (input_value (emailInput u))); simpl;
      [congruence | intros _; eexists; reflexivity].
  - subst p. unfold getPayload_of; cbn [email].
    unfold getTrimmedValue.
    destruct (trim (input_value (emailInput u))); simpl; congruence.
Qed.

End ValidationFacts.

Lemma valid_inputs_give_wellformed_payload_witness :
  let u := Examples.page "12" "teething pain" "" in
  ok (validateForm (H := ExampleHost.host) u) = true
  /\ Number_isFinite (age_months (getPayload_of (H := ExampleHost.host) u)) = true
  /\ concern (getPayload_of (H := ExampleHost.host) u) = js "teething pain"
  /\ email (getPayload_of (H := ExampleHost.host) u) = None.
Proof.
  intros u.
  assert (Hok : ok (validateForm (H := ExampleHost.host) u) = true)
    by (vm_compute; reflexivity).
  split; [exact Hok|].
  destruct (valid_inputs_give_wellformed_payload (H := ExampleHost.host) u
              (or_intror Hok)) as (F & _ & _ & C & _ & _ & _).
  split; [exact F|]. split; [rewrite C; vm_compute; reflexivity|].
  vm_compute; reflexivity.
Defined.

(** ** Error resolution *)

Section ErrorResolution.
Context `{Host}.





End ErrorResolution.

(** ** The submit handler *)

Section Guard.
Context `{Host} {Obs : Type}.

(** The double-submit guard: nothing but [preventDefault] happens. *)
Lemma handleSubmit_in_flight (w : World Obs) :
  state (app w) = submitting ->
  handleSubmit w =
    (Ret tt, {| app := app w; obs := obs w; network := network w;
                calls := calls w; defaultPrevented := true |}).
Proof.
  intros Hs. destruct w as [a o net cs dp]. simpl in Hs.
  unfold handleSubmit. run_step. rewrite Hs. reflexivity.
Qed.

(** C3. When the controller is in [submitting], [handleSubmit] returns
    at once: no network call, no state transition, no event, and every
    field of the controller as it was. *)
Theorem submit_while_submitting_is_noop (w : World Obs) :
  state (app w) = submitting ->
  fst (handleSubmit w) = Ret tt
  /\ app (snd (handleSubmit w)) = app w
  /\ obs (snd (handleSubmit w)) = obs w
  /\ calls (snd (handleSubmit w)) = calls w
  /\ network (snd (handleSubmit w)) = network w.
Proof.
  intros Hs. rewrite (handleSubmit_in_flight w Hs).
  repeat split; reflexivity.
Qed.

End Guard.

Lemma submit_while_submitting_is_noop_witness :
  state (app Examples.in_flight) = submitting
  /\ app (snd (handleSubmit (H := ExampleHost.host) Examples.in_flight))
     = app Examples.in_flight
  /\ obs (snd (handleSubmit (H := ExampleHost.host) Examples.in_flight)) = []
  /\ calls (snd (handleSubmit (H := ExampleHost.host) Examples.in_flight)) = [].
Proof.
  split; [reflexivity|].
  destruct (submit_while_submitting_is_noop (H := ExampleHost.host)
              Examples.in_flight eq_refl) as (_ & A & O & C & _).
  split; [exact A|]. split; [exact O | exact C].
Defined.

Section Attempts.
Context `{Host}.


End Attempts.

Section AttemptTrace.
Context `{Host}.


(** [renderBundles] goes through exactly when every card can be built. *)
Lemma renderBundles_outcome {Obs} (bundles : jsval) (w : World Obs) :
  fst (renderBundles bundles w) =
    match bundle_cards (match bundles with VArr l => l | _ => [] end) with
    | Ret _ => Ret tt
    | Throw e => Throw e
    end
  /\ (let w' := snd (renderBundles bundles w) in
      obs w' = obs w /\ calls w' = calls w /\ network w' = network w
      /\ defaultPrevented w' = defaultPrevented w
      /\ exists u', app w' = set_ui u' (app w)
                    /\ planSection u' = planSection (ui (app w))).
Proof.
  destruct w as [[st oe pe be tm u] o net cs dp].
  unfold renderBundles. run_step.
  destruct (match bundles with VArr l => l | _ => [] end) as [|b l];
    cbn [length Nat.eqb].
  - cbn [bundle_cards]. split; [reflexivity|].
    cbn. repeat split. eexists; split; reflexivity.
  - destruct (bundle_cards (b :: l)); cbn.
    + split; [reflexivity|]. repeat split. eexists; split; reflexivity.
    + split; [reflexivity|]. repeat split. eexists; split; reflexivity.
Qed.


End AttemptTrace.


(** *** The four kinds of attempt *)

Section AttemptClaims.
Context `{Host}.






End AttemptClaims.

(** *** The scenarios of the specification, run on the example host *)

Section Scenarios.
Import ExampleHost Examples.









End Scenarios.

(** ** Wiring the experience layer onto the controller *)

Section Wiring.
Context `{Host} {A B : Type}.
Variable orig : Sink A.
Variable extra : Sink B.
Variable Inv : B -> Prop.
Hypothesis extra_returns :
  forall stage d b, Inv b ->
    fst (extra stage d b) = Ret tt /\ Inv (snd (extra stage d b)).















End Wiring.


Section WiringExamples.
Import ExampleHost Examples.




End WiringExamples.

(** ** The static handler *)

Section StaticHandler.
Import Examples StaticServer.

(** The join resolves [..] segments before the handler strips [..], so
    the stripping finds nothing to remove. *)
Lemma join_resolves_before_strip :
  path_join [cwd; js "frontend"; js "public"; js "/../../package.json"]
    = js "/var/task/package.json"
  /\ remove_dotdot (js "/var/task/package.json") = js "/var/task/package.json".
Proof. split; vm_compute; reflexivity. Qed.

(** A request for the site's index is served from the public root. *)
Lemma index_served_from_root :
  within (public_root cwd) (filePath cwd (authorized "/")) = true
  /\ statusCode (serve1 (authorized "/")) = 200
  /\ statusCode (serve2 (authorized "/missing.css")) = 404
  /\ statusCode (serve2 {| authorization := None; url := js "/" |}) = 401.
Proof. repeat split; vm_compute; reflexivity. Qed.

(** C9 fails on the code: an authenticated request for
    [/../../package.json] is answered 200 with the content of a file
    that lies outside the public root, by both copies of the handler. *)
Theorem traversal_serves_file_outside_root :
  let req := authorized "/../../package.json" in
  authenticated decode (Some (js "user")) (Some (js "pass")) req = true
  /\ filePath cwd req = js "/var/task/package.json"
  /\ within (public_root cwd) (filePath cwd req) = false
  /\ statusCode (serve1 req) = 200
  /\ body (serve1 req) = Data [Byte.x7b; Byte.x7d]
  /\ statusCode (serve2 req) = 200
  /\ body (serve2 req) = Data [Byte.x7b; Byte.x7d].
Proof.
  repeat split; vm_compute; reflexivity.
Qed.

End StaticHandler.

(* ===================================================================== *)
(** * Further properties of the code *)
(* ===================================================================== *)

(** ** Trimming and the validator *)

Lemma trimStart_nil_iff (s : jsstring) :
  trimStart s = [] <-> forallb is_space s = true.
Proof.
  induction s as [|c r IH]; simpl; [tauto|].
  destruct (is_space c); simpl; [exact IH|].
  split; discriminate.
Qed.

Lemma trimStart_all_space (s : jsstring) :
  forallb is_space (trimStart s) = true -> trimStart s = [].
Proof.
  induction s as [|c r IH]; simpl; [reflexivity|].
  destruct (is_space c) eqn:E; [exact IH|].
  simpl. rewrite E. discriminate.
Qed.

Lemma forallb_rev {X} (p : X -> bool) (l : list X) :
  forallb p (rev l) = forallb p l.
Proof.
  induction l as [|x l IH]; simpl; [reflexivity|].
  rewrite forallb_app, IH. simpl. rewrite andb_true_r. apply andb_comm.
Qed.

(** A string trims to nothing exactly when it is all white space. *)
Lemma trim_nil_iff (s : jsstring) :
  trim s = [] <-> forallb is_space s = true.
Proof.
  unfold trim, trimEnd. rewrite <- trimStart_nil_iff.
  split.
  - intros E. apply (f_equal (@rev N)) in E. rewrite rev_involutive in E.
    simpl in E. apply trimStart_nil_iff in E. rewrite forallb_rev in E.
    apply trimStart_all_space. exact E.
  - intros E. rewrite E. reflexivity.
Qed.

Lemma trimStart_space_app (l s : jsstring) :
  forallb is_space l = true -> trimStart (l ++ s) = trimStart s.
Proof.
  induction l as [|c l IH]; cbn [forallb List.app trimStart];
    [reflexivity|].
  destruct (is_space c); [exact IH | discriminate].
Qed.

Lemma trimEnd_app_space (s r : jsstring) :
  forallb is_space r = true -> trimEnd (s ++ r) = trimEnd s.
Proof.
  intros Hr. unfold trimEnd. rewrite rev_app_distr.
  rewrite trimStart_space_app; [reflexivity|].
  rewrite forallb_rev. exact Hr.
Qed.

(** Trimming removes the padding, and nothing else. *)
Lemma trim_padded (s s' : jsstring) : padded s s' -> trim s' = trim s.
Proof.
  intros (l & r & Hl & Hr & ->). unfold trim.
  rewrite trimStart_space_app by exact Hl.
  destruct (trimStart s) as [|c t] eqn:Es.
  - assert (Hs : forallb is_space s = true)
      by (apply trimStart_nil_iff; exact Es).
    assert (E : trimStart (s ++ r) = []).
    { apply trimStart_nil_iff. rewrite forallb_app, Hs, Hr. reflexivity. }
    rewrite E. reflexivity.
  - rewrite trimStart_app_keep by (rewrite Es; discriminate).
    rewrite Es. apply trimEnd_app_space. exact Hr.
Qed.

Section ValidatorExtras.
Context `{Host}.

(** Each key of [fieldErrors] is decided by the conditions on its own
    field. *)
Lemma fieldErrors_lookup (a c e : jsstring) :
  let fe := fieldErrors (validateFields a c e) in
  fe !! "age"%string = fieldErrors (validateFields a [] []) !! "age"%string
  /\ fe !! "concern"%string
     = fieldErrors (validateFields [] c []) !! "concern"%string
  /\ fe !! "email"%string
     = fieldErrors (validateFields [] [] e) !! "email"%string
  /\ forall k, is_Some (fe !! k) ->
       k = "age"%string \/ k = "concern"%string \/ k = "email"%string.
Proof.
  unfold validateFields; cbn [fieldErrors].
  change (trim []) with (@nil N). cbn [truthy_str negb].
  repeat match goal with
         | |- context [if ?b then _ else _] => destruct b
         end;
    (split; [|split; [|split]];
     [ simplify_map_eq; reflexivity
     | simplify_map_eq; reflexivity
     | simplify_map_eq; reflexivity
     | intros k [v Hk];
       repeat (rewrite lookup_insert in Hk; case_decide; [auto|]);
       try (rewrite lookup_empty in Hk; discriminate); auto ]).
Qed.

(** X1. The errors are field-scoped: the entry under [age], [concern]
    or [email] depends on that field's value alone, and no other key is
    ever present. *)
Theorem validation_errors_are_field_scoped (a c e a' c' e' : jsstring) :
  let fe := fieldErrors (validateFields a c e) in
  fe !! "age"%string = fieldErrors (validateFields a c' e') !! "age"%string
  /\ fe !! "concern"%string
     = fieldErrors (validateFields a' c e') !! "concern"%string
  /\ fe !! "email"%string
     = fieldErrors (validateFields a' c' e) !! "email"%string
  /\ forall k, is_Some (fe !! k) ->
       k = "age"%string \/ k = "concern"%string \/ k = "email"%string.
Proof.
  intros fe.
  destruct (fieldErrors_lookup a c e) as (A & C & E & K).
  destruct (fieldErrors_lookup a c' e') as (A' & _).
  destruct (fieldErrors_lookup a' c e') as (_ & C' & _).
  destruct (fieldErrors_lookup a' c' e) as (_ & _ & E' & _).
  subst fe. rewrite A, C, E, A', C', E'. repeat split. exact K.
Qed.

(** X2. A field that holds only white space counts as empty: the age
    and the concern get their "required" message exactly then (never a
    range or length message), and a blank email is no error. *)
Theorem blank_fields_are_required (a c e : jsstring) :
  let fe := fieldErrors (validateFields a c e) in
  (fe !! "age"%string = Some (js "Age is required.")
     <-> forallb is_space a = true)
  /\ (fe !! "concern"%string = Some (js "Please describe your main concern.")
        <-> forallb is_space c = true)
  /\ (forallb is_space e = true -> fe !! "email"%string = None).
Proof.
  intros fe. subst fe.
  rewrite <- !trim_nil_iff.
  destruct (fieldErrors_lookup a c e) as (A & C & E & _).
  rewrite A, C, E. clear A C E.
  unfold validateFields; cbn [fieldErrors].
  change (trim []) with (@nil N). cbn [truthy_str negb].
  repeat split.
  - destruct (trim a) eqn:Ea; cbn [truthy_str negb]; [reflexivity|].
    repeat match goal with
           | |- context [if ?b then _ else _] => destruct b
           end; intros Hk; simplify_map_eq.
  - intros Ea. rewrite Ea. cbn [truthy_str negb]. simplify_map_eq.
    reflexivity.
  - destruct (trim c) eqn:Ec; cbn [truthy_str negb]; [reflexivity|].
    repeat match goal with
           | |- context [if ?b then _ else _] => destruct b
           end; intros Hk; simplify_map_eq.
  - intros Ec. rewrite Ec. cbn [truthy_str negb]. simplify_map_eq.
    reflexivity.
  - intros Ee. rewrite Ee. cbn [truthy_str]. simplify_map_eq. reflexivity.
Qed.

(** X3. White space around what is typed never changes the verdict:
    the validator gives the padded inputs the result it gives the
    inputs themselves. *)
Theorem validation_ignores_padding (a c e a' c' e' : jsstring) :
  padded a a' -> padded c c' -> padded e e' ->
  validateFields a' c' e' = validateFields a c e.
Proof.
  intros Ha Hc He. unfold validateFields.
  rewrite (trim_padded _ _ Ha), (trim_padded _ _ Hc), (trim_padded _ _ He).
  reflexivity.
Qed.

End ValidatorExtras.

Lemma validation_ignores_padding_witness :
  padded (js "12") (js "  12 ")
  /\ validateFields (H := ExampleHost.host) (js "  12 ") (js " teething pain")
       (js " ")
     = validateFields (H := ExampleHost.host) (js "12") (js "teething pain") [].
Proof.
  assert (Ha : padded (js "12") (js "  12 "))
    by (exists (js "  "), (js " "); repeat split).
  assert (Hc : padded (js "teething pain") (js " teething pain"))
    by (exists (js " "), []; repeat split).
  assert (He : padded [] (js " "))
    by (exists (js " "), []; repeat split).
  split; [exact Ha|].
  exact (validation_ignores_padding (H := ExampleHost.host) _ _ _ _ _ _
           Ha Hc He).
Defined.

(** ** The email pattern *)

Lemma nullable_matches (r : RegExp.regex) :
  RegExp.nullable r = true <-> matches r [].
Proof.
  induction r as [| |p|a IHa b IHb|a IHa b IHb|a IHa]; simpl.
  - split; [discriminate | intros M; inversion M].
  - split; [intros _; constructor | reflexivity].
  - split; [discriminate | intros M; inversion M].
  - rewrite andb_true_iff, IHa, IHb. split.
    + intros [Ma Mb]. exact (MSeq a b [] [] Ma Mb).
    + intros M. inversion M as [| |a' b' s t Ma Mb Hr Hs| | | |]; subst.
      destruct s; [|discriminate]. destruct t; [|discriminate].
      split; assumption.
  - rewrite orb_true_iff, IHa, IHb. split.
    + intros [M|M]; [apply MAltL | apply MAltR]; exact M.
    + intros M. inversion M; subst; [left | right]; assumption.
  - split; [intros _; constructor | reflexivity].
Qed.

Lemma deriv_sound (c : N) (r : RegExp.regex) (s : jsstring) :
  matches (RegExp.deriv c r) s -> matches r (c :: s).
Proof.
  revert s. induction r as [| |p|a IHa b IHb|a IHa b IHb|a IHa];
    simpl; intros s M.
  - inversion M.
  - inversion M.
  - destruct (p c) eqn:E; inversion M; subst. constructor. exact E.
  - destruct (RegExp.nullable a) eqn:Na.
    + inversion M as [| | |a' b' s' Ml|a' b' s' Mr| |]; subst.
      * inversion Ml as [| |a' b' s1 t Ma Mb| | | |]; subst.
        exact (MSeq a b (c :: s1) t (IHa _ Ma) Mb).
      * apply nullable_matches in Na.
        exact (MSeq a b [] (c :: s) Na (IHb _ Mr)).
    + inversion M as [| |a' b' s1 t Ma Mb| | | |]; subst.
      exact (MSeq a b (c :: s1) t (IHa _ Ma) Mb).
  - inversion M; subst; [apply MAltL | apply MAltR]; auto.
  - inversion M as [| |a' b' s1 t Ma Mb| | | |]; subst.
    exact (MStarCons a (c :: s1) t (IHa _ Ma) Mb).
Qed.

Lemma deriv_complete (r : RegExp.regex) (u : jsstring) :
  matches r u ->
  forall c s, u = c :: s -> matches (RegExp.deriv c r) s.
Proof.
  induction 1 as [|p d Hp|a b s t Ma IHa Mb IHb|a b s Ma IHa|a b s Mb IHb
                  |a|a s t Ma IHa Mb IHb]; intros c s' E; simpl.
  - discriminate.
  - inversion E; subst. rewrite Hp. constructor.
  - destruct s as [|x s1]; simpl in E.
    + assert (Na : RegExp.nullable a = true) by (apply nullable_matches; exact Ma).
      rewrite Na. apply MAltR. apply IHb. exact E.
    + inversion E; subst.
      assert (M' : matches (RegExp.Seq (RegExp.deriv c a) b) (s1 ++ t))
        by (apply MSeq; [apply IHa; reflexivity | exact Mb]).
      destruct (RegExp.nullable a); [apply MAltL|]; exact M'.
  - apply MAltL. apply IHa. exact E.
  - apply MAltR. apply IHb. exact E.
  - discriminate.
  - destruct s as [|x s1]; simpl in E.
    + exact (IHb c s' E).
    + inversion E; subst. apply MSeq; [apply IHa; reflexivity | exact Mb].
Qed.

(** The matcher decides the denotation. *)
Lemma test_anchored_matches (r : RegExp.regex) (s : jsstring) :
  RegExp.test_anchored r s = true <-> matches r s.
Proof.
  revert r. induction s as [|c s IH]; intros r; simpl.
  - apply nullable_matches.
  - rewrite IH. split; [apply deriv_sound|].
    intros M. exact (deriv_complete r _ M c s eq_refl).
Qed.

Lemma matches_star_class (p : N -> bool) (s : jsstring) :
  matches (RegExp.Star (RegExp.Class p)) s <-> forallb p s = true.
Proof.
  split.
  - remember (RegExp.Star (RegExp.Class p)) as r eqn:Er.
    induction 1 as [| | | | | |a s t Ma _ Mb IHb]; try discriminate.
    + reflexivity.
    + inversion Er; subst. inversion Ma; subst. simpl.
      rewrite IHb by reflexivity. rewrite andb_true_r. assumption.
  - induction s as [|c s IH]; simpl; intros E.
    + constructor.
    + apply andb_true_iff in E as [Ec Es].
      exact (MStarCons _ [c] s (MClass p c Ec) (IH Es)).
Qed.

Lemma matches_plus_class (p : N -> bool) (s : jsstring) :
  matches (RegExp.Plus (RegExp.Class p)) s
  <-> s <> [] /\ forallb p s = true.
Proof.
  unfold RegExp.Plus. split.
  - intros M. inversion M as [| |a b s1 t Ma Mb| | | |]; subst.
    inversion Ma; subst. apply matches_star_class in Mb.
    split; [discriminate|]. simpl. rewrite Mb, andb_true_r. assumption.
  - intros [Hne E]. destruct s as [|c s]; [congruence|].
    simpl in E. apply andb_true_iff in E as [Ec Es].
    exact (MSeq _ _ [c] s (MClass p c Ec)
             (proj2 (matches_star_class p s) Es)).
Qed.

Lemma matches_chr (c : N) (s : jsstring) :
  matches (RegExp.Chr c) s <-> s = [c].
Proof.
  unfold RegExp.Chr. split.
  - intros M. inversion M as [|p d Hp| | | | |]; subst.
    apply N.eqb_eq in Hp. subst. reflexivity.
  - intros ->. constructor. apply N.eqb_refl.
Qed.

(** X4. The email pattern accepts exactly the strings of the shape
    local [@] domain [.] tld, whose three parts are non-empty and hold
    neither white space nor [@]. *)
Theorem email_pattern_accepts_exactly (s : jsstring) :
  RegExp.test_anchored basicEmailRegex s = true <-> email_shape s.
Proof.
  rewrite test_anchored_matches. unfold basicEmailRegex, email_shape.
  fold plain_char. change (fun c : N => plain_char c) with plain_char.
  split.
  - intros M.
    inversion M as [| |r1 r2 l s2 Ml M2| | | |]; subst.
    inversion M2 as [| |r1 r2 at_ s3 Mat M3| | | |]; subst.
    inversion M3 as [| |r1 r2 d s4 Md M4| | | |]; subst.
    inversion M4 as [| |r1 r2 dot t Mdot Mt| | | |]; subst.
    apply matches_plus_class in Ml as [Hl Pl].
    apply matches_plus_class in Md as [Hd Pd].
    apply matches_plus_class in Mt as [Ht Pt].
    apply matches_chr in Mat. apply matches_chr in Mdot. subst.
    exists l, d, t. repeat split; try assumption.
    rewrite !forallb_app, Pl, Pd, Pt. reflexivity.
  - intros (l & d & t & -> & Hl & Hd & Ht & P).
    rewrite !forallb_app, !andb_true_iff in P. destruct P as (Pl & Pd & Pt).
    apply MSeq; [apply matches_plus_class; split; assumption|].
    apply MSeq; [apply matches_chr; reflexivity|].
    apply MSeq; [apply matches_plus_class; split; assumption|].
    apply MSeq; [apply matches_chr; reflexivity|].
    apply matches_plus_class; split; assumption.
Qed.

(** ** The fetch wrapper *)

(** X5. [jsonFetch] returns a value only for a 2xx response whose body
    could be read: [null] for an empty body, the decoded JSON
    otherwise. *)
Theorem jsonFetch_returns_exactly (o : fetch_outcome) (v : jsval) :
  jsonFetch_result o = Ret v <->
  exists status body,
    o = FetchResponse status body /\ res_ok status = true
    /\ (body = BodyEmpty /\ v = VNull \/ body = BodyJson v).
Proof.
  unfold jsonFetch_result, jsonFetch_try. split.
  - destruct o as [e|status body].
    + destruct (truthy e && is_str (get_name e) (js "AbortError"));
        discriminate.
    + destruct (res_ok status) eqn:Eok; cbn [negb].
      * destruct body; cbn; intros E; inversion E; subst;
          exists status; eexists; (split; [reflexivity|]);
          (split; [exact Eok|]); auto.
      * cbn. discriminate.
  - intros (status & body & -> & Eok & [[-> ->] | ->]); rewrite Eok;
      reflexivity.
Qed.



(** ** The static handler: who gets in, and what can be named *)

Section StaticExtras.
Import StaticServer.

Lemma split_on_cons (sep : N) (s : jsstring) :
  exists p ps, split_on sep s = p :: ps.
Proof.
  induction s as [|c r (p & ps & IH)]; simpl.
  - eauto.
  - destruct (c =? sep); [eauto|]. rewrite IH. eauto.
Qed.

Lemma split_on_pieces (sep : N) (s : jsstring) :
  Forall (fun p => ~ In sep p) (split_on sep s).
Proof.
  induction s as [|c r IH]; simpl.
  - constructor; [intros []|constructor].
  - destruct (c =? sep) eqn:E.
    + constructor; [intros []|exact IH].
    + destruct (split_on sep r) as [|p ps].
      * constructor; [|constructor]. intros [->|[]].
        rewrite N.eqb_refl in E. discriminate.
      * inversion IH as [|? ? Hp Hps]; subst. constructor; [|exact Hps].
        intros [->|Hin]; [rewrite N.eqb_refl in E; discriminate|auto].
Qed.

Section AnyDeployment.
Variable base64_decode : jsstring -> jsstring.
Variable cwd : jsstring.
Variables USER PASS : option jsstring.
Variable fs : jsstring -> option (list Byte.byte).
Variable mimeTypes : list (jsstring * jsstring).
Variable realm authMessage : jsstring.

(** X7. With [BASIC_AUTH_USERNAME] unset, nobody gets in: every request
    is answered 401, whatever header it carries. *)
Theorem unset_username_rejects_everyone (req : Request) :
  USER = None ->
  statusCode (handler base64_decode cwd USER PASS fs mimeTypes realm
                      authMessage req) = 401.
Proof.
  intros ->. unfold handler, authenticated.
  match goal with
  | |- context [split_on 0x3A ?s] =>
      destruct (split_on_cons 0x3A s) as (p & ps & E); rewrite E
  end.
  cbn [index nth_error]. rewrite bool_decide_eq_false_2 by discriminate.
  reflexivity.
Qed.

(** X8. The credentials are cut at [:], so a configured user name or
    password that contains a [:] can never be matched: every request is
    answered 401. *)
Theorem colon_in_credentials_rejects_everyone (req : Request) :
  (exists u, USER = Some u /\ In 0x3A u)
  \/ (exists p, PASS = Some p /\ In 0x3A p) ->
  statusCode (handler base64_decode cwd USER PASS fs mimeTypes realm
                      authMessage req) = 401.
Proof.
  intros Hc. unfold handler, authenticated.
  match goal with
  | |- context [split_on 0x3A ?s] =>
      pose proof (split_on_pieces 0x3A s) as F;
      destruct (split_on 0x3A s) as [|x xs]
  end.
  - cbn [index nth_error].
    destruct Hc as [(u & -> & _)|(p & -> & _)];
      rewrite ?bool_decide_eq_false_2 by discriminate;
      rewrite ?andb_false_r; reflexivity.
  - inversion F as [|? ? Hx Hxs]; subst. cbn [index nth_error].
    destruct Hc as [(u & -> & Hin)|(p & -> & Hin)].
    + rewrite bool_decide_eq_false_2; [reflexivity|].
      intros E; inversion E; subst. auto.
    + destruct xs as [|y ys]; cbn [nth_error].
      * rewrite (bool_decide_eq_false_2 (None = Some p)) by discriminate.
        rewrite andb_false_r. reflexivity.
      * inversion Hxs as [|? ? Hy _]; subst.
        rewrite (bool_decide_eq_false_2 (Some y = Some p));
          [rewrite andb_false_r; reflexivity|].
        intros E; inversion E; subst. auto.
Qed.

Lemma remove_dotdot_head (s : jsstring) (b : N) :
  (b =? 0x2E) = false ->
  exists r, remove_dotdot (b :: s) = b :: r.
Proof.
  intros Hb. destruct s as [|c s]; simpl; [eauto|].
  rewrite Hb, andb_false_l. eauto.
Qed.

Lemma remove_dotdot_step (a b : N) (r : jsstring) :
  remove_dotdot (a :: b :: r)
  = if (a =? 0x2E) && (b =? 0x2E) then remove_dotdot r
    else a :: remove_dotdot (b :: r).
Proof. reflexivity. Qed.

Lemma has_dotdot_step (a b : N) (t : jsstring) :
  has_dotdot (a :: b :: t)
  = ((a =? 0x2E) && (b =? 0x2E)) || has_dotdot (b :: t).
Proof. reflexivity. Qed.

Lemma remove_dotdot_free_upto (n : nat) (s : jsstring) :
  (length s <= n)%nat -> has_dotdot (remove_dotdot s) = false.
Proof.
  revert s. induction n as [|n IH]; intros s Hn.
  - destruct s; [reflexivity | simpl in Hn; lia].
  - destruct s as [|a [|b r]]; [reflexivity | reflexivity |].
    rewrite remove_dotdot_step.
    destruct ((a =? 0x2E) && (b =? 0x2E)) eqn:E.
    + apply IH. simpl in Hn. lia.
    + assert (Ht : has_dotdot (remove_dotdot (b :: r)) = false)
        by (apply IH; simpl in *; lia).
      destruct (b =? 0x2E) eqn:Eb.
      * rewrite andb_true_r in E.
        destruct (remove_dotdot (b :: r)) as [|x t] eqn:Ex; [reflexivity|].
        rewrite has_dotdot_step, E, andb_false_l, orb_false_l.
        exact Ht.
      * destruct (remove_dotdot_head r b Eb) as (t & Ex). rewrite Ex in *.
        rewrite has_dotdot_step, Eb, andb_false_r, orb_false_l.
        exact Ht.
Qed.

(** X9. No path the handler looks up has two dots in a row, so a file
    whose path has (such as [notes..txt]) can never be requested: no
    request names it. *)
Theorem dotted_names_are_unreachable (req : Request) :
  has_dotdot (filePath cwd req) = false
  /\ forall p, has_dotdot p = true -> filePath cwd req <> p.
Proof.
  assert (F : has_dotdot (filePath cwd req) = false)
    by (unfold filePath; eapply remove_dotdot_free_upto; reflexivity).
  split; [exact F|]. intros p Hp E. rewrite E in F. congruence.
Qed.

End AnyDeployment.
End StaticExtras.

Lemma unset_username_rejects_everyone_witness :
  StaticServer.statusCode
    (StaticServer.handler2 Examples.decode Examples.cwd None None
       Examples.disk (Examples.authorized "/")) = 401.
Proof.
  exact (unset_username_rejects_everyone Examples.decode Examples.cwd None
           None Examples.disk StaticServer.mimeTypes2 (js "Protected")
           (js "Auth required") (Examples.authorized "/") eq_refl).
Defined.

Lemma colon_in_credentials_rejects_everyone_witness :
  In 0x3A (js "a:b")
  /\ StaticServer.statusCode
       (StaticServer.handler2 Examples.decode Examples.cwd
          (Some (js "user")) (Some (js "a:b"))
          Examples.disk (Examples.authorized "/")) = 401.
Proof.
  assert (Hin : In 0x3A (js "a:b")) by (right; left; reflexivity).
  split; [exact Hin|].
  apply (colon_in_credentials_rejects_everyone Examples.decode Examples.cwd
           (Some (js "user")) (Some (js "a:b")) Examples.disk
           StaticServer.mimeTypes2 (js "Protected") (js "Auth required")).
  right. exists (js "a:b"). split; [reflexivity | exact Hin].
Defined.

(** ** Showing the validation result *)

Section ShowErrors.
Context `{Host} {Obs : Type}.

Lemma formError_validateForm (u : PlannerUI) :
  formError (validateForm u)
  = if ok (validateForm u) then None
    else Some DEFAULTS.TEXT.STATUS_VALIDATION_ERROR.
Proof. reflexivity. Qed.

(** Showing the message for a field after clearing it, as
    [validateAndShowErrors] does, is showing the validator's entry. *)
Lemma shown_after_clear (input : option InputEl)
    (fe : gmap string jsstring) (k : string) :
  (fun i => setFieldError i (fe !! k)) <$> input
  = match input_and_error input fe k with
    | Some m =>
        (fun i => setFieldError i (Some m))
          <$> ((fun i => setFieldError i None) <$> input)
    | None => (fun i => setFieldError i None) <$> input
    end.
Proof.
  unfold input_and_error, setFieldError.
  destruct input as [i|]; [|destruct (fe !! k); reflexivity].
  destruct (fe !! k) as [m|]; [|reflexivity].
  destruct (truthy_str m) eqn:T; cbn; rewrite ?T; reflexivity.
Qed.

(** [validateAndShowErrors], for any sink: the page it leaves, the one
    event it may emit, and its answer. *)
Lemma validateAndShowErrors_eq (b : bool) (w : World Obs) :
  validateAndShowErrors b w =
    let u := ui (app w) in
    let page := set_app (set_ui (validated_ui b u) (app w)) w in
    if ok (validateForm u) then (Ret true, page)
    else
      match call_onEvent "validation_failed"
              (DFieldErrors (fieldErrors (validateForm u))) page with
      | (Ret _, w') => (Ret false, w')
      | (Throw e, w') => (Throw e, w')
      end.
Proof.
  destruct w as [[st oe pe be tm u] o net cs dp].
  unfold validateAndShowErrors, validated_ui, first_invalid.
  cbv beta iota zeta delta [mbind M_bind mret M_ret this].
  cbn [app ui]. rewrite formError_validateForm.
  destruct (ok (validateForm u)) eqn:Eok; cbn [negb].
  - assert (Hfe : fieldErrors (validateForm u) = ∅)
      by (apply ok_no_errors; exact Eok).
    rewrite Hfe, !lookup_empty.
    destruct u as [ps bs stt stc sh ab sd fo ia ic ie].
    run_flat. reflexivity.
  - change (or_str DEFAULTS.TEXT.STATUS_VALIDATION_ERROR
              DEFAULTS.TEXT.STATUS_VALIDATION_ERROR)
      with DEFAULTS.TEXT.STATUS_VALIDATION_ERROR.
    set (fe := fieldErrors (validateForm u)). clearbody fe. clear Eok.
    rewrite !shown_after_clear.
    destruct u as [ps bs stt stc sh ab sd fo ia ic ie].
    cbn [ageInput concernInput emailInput].
    destruct (input_and_error ia fe "age"),
      (input_and_error ic fe "concern"),
      (input_and_error ie fe "email"), b;
      run_flat; reflexivity.
Qed.

End ShowErrors.

(** ** The submit handler, whatever the sink does *)

Section AnySink.
Context `{Host} {Obs : Type}.

(** [handleSubmit] is its guard, its validation step and its [try]
    statement. *)
Lemma handleSubmit_phases :
  handleSubmit (Obs := Obs) =
    (preventDefault ;;
     st ← this state;
     if is_submitting st then mret tt else
     setState validating ;;
     isValid ← validateAndShowErrors true;
     if negb isValid then setState error
     else
     payload ← getPayload;
     call_onEvent "submit" (DPayload payload) ;;
     disableForm ;;
     showSpinner ;;
     setStatus DEFAULTS.TEXT.STATUS_LOADING false ;;
     setState submitting ;;
     submit_try payload).
Proof. reflexivity. Qed.

(** After the [finally] block the spinner is hidden, the button is
    enabled and the state is not [submitting], even if the sink throws
    on the [idle] announcement. *)
Lemma submit_finally_post (w : World Obs) :
  let w' := snd (submit_finally w) in
  state (app w') <> submitting
  /\ spinnerHidden (ui (app w')) = true
  /\ ariaBusy (ui (app w')) = false
  /\ submitDisabled (ui (app w')) = false.
Proof.
  destruct w as [[st oe pe be tm u] o net cs dp].
  destruct u as [ps bs stt stc sh ab sd fo ia ic ie].
  unfold submit_finally. run_flat.
  destruct st; cbn [is_submitting]; run_flat;
    try (repeat split; (discriminate || reflexivity)).
  destruct (oe "state_change"%string (DState idle) o) as [r o'].
  run_flat. repeat split; (discriminate || reflexivity).
Qed.

Lemma submit_try_post (payload : PlannerPayload) (w : World Obs) :
  let w' := snd (submit_try payload w) in
  state (app w') <> submitting
  /\ spinnerHidden (ui (app w')) = true
  /\ ariaBusy (ui (app w')) = false
  /\ submitDisabled (ui (app w')) = false.
Proof.
  unfold submit_try, try_finally.
  match goal with |- context [try_catch ?b ?h w] =>
    destruct (try_catch b h w) as [r w1] end.
  pose proof (submit_finally_post w1) as P.
  destruct (submit_finally w1) as [[[]|e] w2]; exact P.
Qed.

(** X10. Once [handleSubmit] has made a network call, it does not
    return, normally or by a throw, before the spinner is hidden, the
    button is enabled again and the state has left [submitting]:
    whatever the sink does, also when it throws. *)
Theorem network_attempt_always_cleans_up (w : World Obs) :
  let w' := snd (handleSubmit w) in
  calls w' <> calls w ->
  state (app w') <> submitting
  /\ spinnerHidden (ui (app w')) = true
  /\ ariaBusy (ui (app w')) = false
  /\ submitDisabled (ui (app w')) = false.
Proof.
  rewrite handleSubmit_phases.
  destruct w as [[st oe pe be tm u] o net cs dp].
  cbv beta iota zeta delta [mbind M_bind mret M_ret this preventDefault].
  cbn [app state].
  destruct (is_submitting st); [(intros Hc; exfalso; apply Hc; reflexivity)|].
  cbv beta iota zeta delta [setState call_onEvent set_app set_state
                            mbind M_bind].
  world_fields.
  destruct (oe "state_change"%string (DState validating) o) as [[[]|e] o1];
    [|(intros Hc; exfalso; apply Hc; reflexivity)].
  rewrite validateAndShowErrors_eq.
  cbv beta iota zeta delta [call_onEvent set_app set_ui].
  world_fields.
  destruct (ok (validateForm u)).
  2:{ destruct (oe "validation_failed"%string _ o1) as [[[]|e] o2];
        [|(intros Hc; exfalso; apply Hc; reflexivity)].
      cbn [negb app obs network calls defaultPrevented state onEvent ui].
      destruct (oe "state_change"%string (DState error) o2) as [[[]|e] o3];
        (intros Hc; exfalso; apply Hc; reflexivity). }
  cbn [negb].
  cbv beta iota zeta delta [getPayload this].
  world_fields.
  destruct (oe "submit"%string _ o1) as [[[]|e] o2]; [|(intros Hc; exfalso; apply Hc; reflexivity)].
  cbv beta iota zeta delta [disableForm showSpinner setStatus dom set_app
                            set_ui].
  world_fields.
  destruct (oe "state_change"%string (DState submitting) o2)
    as [[[]|e] o3]; [|(intros Hc; exfalso; apply Hc; reflexivity)].
  intros _. apply submit_try_post.
Qed.

End AnySink.

(** ** What a run leaves alone *)

Section Frame.
Context `{Host} {Obs : Type}.

Lemma framed_refl (w : World Obs) : framed w w.
Proof.
  repeat split; try reflexivity. exists []. symmetry; apply app_nil_r.
Qed.

Lemma framed_trans (w1 w2 w3 : World Obs) :
  framed w1 w2 -> framed w2 w3 -> framed w1 w3.
Proof.
  intros (A1 & A2 & A3 & A4 & A5 & A6 & A7 & A8 & m1 & A9)
         (B1 & B2 & B3 & B4 & B5 & B6 & B7 & B8 & m2 & B9).
  repeat split; try congruence.
  exists (m1 ++ m2). rewrite B9, A9. symmetry; apply app_assoc.
Qed.

Lemma keeps_ret {X} (x : X) : keeps (Obs := Obs) (mret x).
Proof. intros w. apply framed_refl. Qed.

Lemma keeps_lift {X} (o : outcome X) : keeps (Obs := Obs) (lift o).
Proof. intros w. apply framed_refl. Qed.

Lemma keeps_this {X} (f : PlannerApp Obs -> X) : keeps (this f).
Proof. intros w. apply framed_refl. Qed.

Lemma keeps_bind {X Y} (m : M Obs X) (f : X -> M Obs Y) :
  keeps m -> (forall x, keeps (f x)) -> keeps (m ≫= f).
Proof.
  intros Hm Hf w. unfold mbind, M_bind.
  specialize (Hm w). destruct (m w) as [[x|e] w1]; cbn [snd] in Hm.
  - eapply framed_trans; [exact Hm | apply Hf].
  - exact Hm.
Qed.

Lemma keeps_try_catch {X} (body : M Obs X) (handler : jsval -> M Obs X) :
  keeps body -> (forall e, keeps (handler e)) -> keeps (try_catch body handler).
Proof.
  intros Hm Hf w. unfold try_catch.
  specialize (Hm w). destruct (body w) as [[x|e] w1]; cbn [snd] in Hm.
  - exact Hm.
  - eapply framed_trans; [exact Hm | apply Hf].
Qed.

Lemma keeps_try_finally {X} (body : M Obs X) (fin : M Obs unit) :
  keeps body -> keeps fin -> keeps (try_finally body fin).
Proof.
  intros Hm Hf w. unfold try_finally.
  specialize (Hm w). destruct (body w) as [r w1]; cbn [snd] in Hm.
  specialize (Hf w1). destruct (fin w1) as [[[]|e] w2]; cbn [snd] in *;
    eapply framed_trans; eassumption.
Qed.

Lemma keeps_dom (f : PlannerUI -> PlannerUI) :
  (forall u, input_value (ageInput (f u)) = input_value (ageInput u)
             /\ input_value (concernInput (f u)) = input_value (concernInput u)
             /\ input_value (emailInput (f u)) = input_value (emailInput u)) ->
  keeps (Obs := Obs) (dom f).
Proof.
  intros Hf w. destruct (Hf (ui (app w))) as (A & B & C).
  unfold dom, framed. cbn [snd set_app set_ui app ui onEvent planEndpoint
    bundlesEndpoint timeoutMs network calls].
  repeat split; try assumption. exists []. symmetry; apply app_nil_r.
Qed.

Lemma keeps_call_onEvent (stage : string) (d : detail) :
  keeps (Obs := Obs) (call_onEvent stage d).
Proof.
  intros w. unfold call_onEvent.
  destruct (onEvent (app w) stage d (obs w)) as [r o'].
  repeat split. exists []. symmetry; apply app_nil_r.
Qed.

Lemma keeps_setState (s : PlannerState) : keeps (Obs := Obs) (setState s).
Proof.
  unfold setState. apply keeps_bind; [|intros; apply keeps_call_onEvent].
  intros w. repeat split. exists []. symmetry; apply app_nil_r.
Qed.

Lemma keeps_preventDefault : keeps (Obs := Obs) preventDefault.
Proof.
  intros w. repeat split. exists []. symmetry; apply app_nil_r.
Qed.

Lemma keeps_jsonFetch (r : request) : keeps (Obs := Obs) (jsonFetch r).
Proof. intros w. repeat split. exists [r]. reflexivity. Qed.

Lemma option_value_fmap (i : option InputEl) (m : option jsstring) :
  input_value ((fun i => setFieldError i m) <$> i) = input_value i.
Proof. destruct i; reflexivity. Qed.

Lemma validated_ui_values (b : bool) (u : PlannerUI) :
  input_value (ageInput (validated_ui b u)) = input_value (ageInput u)
  /\ input_value (concernInput (validated_ui b u))
     = input_value (concernInput u)
  /\ input_value (emailInput (validated_ui b u)) = input_value (emailInput u).
Proof.
  unfold validated_ui.
  destruct (ok (validateForm u)).
  - cbn [with_status with_inputs ageInput concernInput emailInput].
    rewrite !option_value_fmap. auto.
  - destruct (if b then _ else _);
      cbn [with_focus with_status with_inputs ageInput concernInput
           emailInput];
      rewrite !option_value_fmap; auto.
Qed.

Lemma keeps_validateAndShowErrors (b : bool) :
  keeps (Obs := Obs) (validateAndShowErrors b).
Proof.
  intros w. rewrite validateAndShowErrors_eq. cbv zeta.
  assert (P : framed w (set_app (set_ui (validated_ui b (ui (app w))) (app w)) w)).
  { destruct (validated_ui_values b (ui (app w))) as (A & B & C).
    repeat split; try assumption. exists []. symmetry; apply app_nil_r. }
  destruct (ok (validateForm (ui (app w)))); [exact P|].
  pose proof (keeps_call_onEvent "validation_failed"
    (DFieldErrors (fieldErrors (validateForm (ui (app w)))))
    (set_app (set_ui (validated_ui b (ui (app w))) (app w)) w)) as Q.
  destruct (call_onEvent _ _ _) as [[[]|e] w1]; cbn [snd] in *;
    eapply framed_trans; eassumption.
Qed.

Ltac keeps_step :=
  lazymatch goal with
  | |- keeps (mret _) => apply keeps_ret
  | |- keeps (lift _) => apply keeps_lift
  | |- keeps (this _) => apply keeps_this
  | |- keeps (call_onEvent _ _) => apply keeps_call_onEvent
  | |- keeps (setState _) => apply keeps_setState
  | |- keeps preventDefault => apply keeps_preventDefault
  | |- keeps (jsonFetch _) => apply keeps_jsonFetch
  | |- keeps (validateAndShowErrors _) => apply keeps_validateAndShowErrors
  | |- keeps (dom _) =>
      apply keeps_dom; intros [? ? ? ? ? ? ? ? [?|] [?|] [?|]];
      repeat split; reflexivity
  | |- keeps (mbind _ _) => apply keeps_bind; [|intros ?]
  | |- keeps (try_catch _ _) => apply keeps_try_catch; [|intros ?]
  | |- keeps (try_finally _ _) => apply keeps_try_finally
  | |- keeps (if ?c then _ else _) => destruct c
  | |- keeps (match ?c with _ => _ end) => destruct c
  end.

Lemma keeps_renderBundles (v : jsval) : keeps (Obs := Obs) (renderBundles v).
Proof. unfold renderBundles. cbv zeta. repeat keeps_step. Qed.

Lemma keeps_renderPlan (v : jsval) : keeps (Obs := Obs) (renderPlan v).
Proof. unfold renderPlan. repeat keeps_step. Qed.

Lemma keeps_blurHandler : keeps (Obs := Obs) blurHandler.
Proof. unfold blurHandler. repeat keeps_step. Qed.

Lemma keeps_resetUI : keeps (Obs := Obs) resetUI.
Proof.
  unfold resetUI, clearStatus, setStatus, hideSpinner, clearFieldErrors.
  repeat keeps_step.
Qed.

(** X11. Whatever the sink does, a submit leaves the controller's
    configuration (sink, endpoints, timeout) and the text typed into the
    three inputs as they were, and only ever appends to the list of
    network calls. *)
Theorem submit_keeps_configuration_and_inputs (w : World Obs) :
  let w' := snd (handleSubmit w) in
  onEvent (app w') = onEvent (app w)
  /\ planEndpoint (app w') = planEndpoint (app w)
  /\ bundlesEndpoint (app w') = bundlesEndpoint (app w)
  /\ timeoutMs (app w') = timeoutMs (app w)
  /\ network w' = network w
  /\ input_value (ageInput (ui (app w'))) = input_value (ageInput (ui (app w)))
  /\ input_value (concernInput (ui (app w')))
     = input_value (concernInput (ui (app w)))
  /\ input_value (emailInput (ui (app w')))
     = input_value (emailInput (ui (app w)))
  /\ exists more, calls w' = calls w ++ more.
Proof.
  revert w. change (keeps (Obs := Obs) handleSubmit).
  unfold handleSubmit, setStatus, disableForm, enableForm, showSpinner,
    hideSpinner, getPayload.
  repeat lazymatch goal with
         | |- keeps (renderBundles _) => apply keeps_renderBundles
         | |- keeps (renderPlan _) => apply keeps_renderPlan
         | |- _ => keeps_step
         end.
Qed.

End Frame.

(** ** What validation shows on the page *)

Section ShownErrors.
Context `{Host} {Obs : Type}.

(** The validator has no empty message. *)
Lemma fieldErrors_messages_truthy (a c e : jsstring) (k : string)
    (m : jsstring) :
  fieldErrors (validateFields a c e) !! k = Some m -> truthy_str m = true.
Proof.
  intros Hk.
  destruct (fieldErrors_lookup a c e) as (A & C & E & K).
  destruct (K k (ex_intro _ m Hk)) as [-> | [-> | ->]].
  - rewrite A in Hk. clear -Hk. revert Hk.
    unfold validateFields; cbn [fieldErrors].
    change (trim []) with (@nil N). cbn [truthy_str negb].
    repeat match goal with
           | |- context [if ?b then _ else _] => destruct b
           end; intros Hk; simplify_map_eq; reflexivity.
  - rewrite C in Hk. clear -Hk. revert Hk.
    unfold validateFields; cbn [fieldErrors].
    change (trim []) with (@nil N). cbn [truthy_str negb].
    repeat match goal with
           | |- context [if ?b then _ else _] => destruct b
           end; intros Hk; simplify_map_eq; reflexivity.
  - rewrite E in Hk. clear -Hk. revert Hk.
    unfold validateFields; cbn [fieldErrors].
    change (trim []) with (@nil N). cbn [truthy_str negb].
    repeat match goal with
           | |- context [if ?b then _ else _] => destruct b
           end; intros Hk; simplify_map_eq; reflexivity.
Qed.


Lemma input_and_error_validator (u : PlannerUI) (k : string)
    (i : option InputEl) :
  input_and_error i (fieldErrors (validateForm u)) k
  = match i with Some _ => fieldErrors (validateForm u) !! k | None => None end.
Proof.
  unfold input_and_error. destruct i; [|reflexivity].
  destruct (fieldErrors (validateForm u) !! k) as [m|] eqn:E; [|reflexivity].
  unfold validateForm in E. apply fieldErrors_messages_truthy in E.
  rewrite E. reflexivity.
Qed.

Lemma validateAndShowErrors_world (b : bool) (w : World Obs) :
  let w' := snd (validateAndShowErrors b w) in
  app w' = set_ui (validated_ui b (ui (app w))) (app w)
  /\ calls w' = calls w /\ network w' = network w
  /\ defaultPrevented w' = defaultPrevented w.
Proof.
  rewrite validateAndShowErrors_eq. cbv zeta.
  destruct (ok (validateForm (ui (app w)))); [repeat split|].
  unfold call_onEvent.
  destruct (onEvent _ _ _ _) as [[[]|e] o']; repeat split.
Qed.

(** Without the focus request the page keeps its focus. *)
Lemma validated_ui_focus (u : PlannerUI) :
  focused (validated_ui false u) = focused u.
Proof.
  unfold validated_ui. cbv zeta.
  destruct (ok (validateForm u)); reflexivity.
Qed.


(** X13. Leaving a field (the [blur] listener) does nothing at all
    while a submit is in flight; otherwise it refreshes the messages as
    [validateAndShowErrors(false)] does, and in no case does it move the
    focus, change the state, or call the network. *)
Theorem blur_validates_without_focus_or_network (w : World Obs) :
  let w' := snd (blurHandler w) in
  (state (app w) = submitting -> blurHandler w = (Ret tt, w))
  /\ (state (app w) <> submitting ->
        w' = snd (validateAndShowErrors false w))
  /\ focused (ui (app w')) = focused (ui (app w))
  /\ state (app w') = state (app w)
  /\ calls w' = calls w.
Proof.
  assert (E : state (app w) <> submitting ->
              snd (blurHandler w) = snd (validateAndShowErrors false w)).
  { intros Hs. unfold blurHandler.
    cbv beta iota zeta delta [mbind M_bind mret M_ret this].
    destruct (state (app w)); try congruence; cbn [is_submitting];
      destruct (validateAndShowErrors false w) as [[?|?] ?]; reflexivity. }
  cbv zeta.
  destruct (state (app w)) eqn:Est;
    try (rewrite E by discriminate;
         destruct (validateAndShowErrors_world false w) as (A & C & _);
         cbv zeta in A, C; rewrite A, C; cbn [set_ui ui state];
         split; [discriminate|]; split; [reflexivity|];
         split; [apply validated_ui_focus|]; split; [congruence | reflexivity]).
  assert (B : blurHandler w = (Ret tt, w)).
  { unfold blurHandler.
    cbv beta iota zeta delta [mbind M_bind mret M_ret this].
    rewrite Est. reflexivity. }
  rewrite B. cbn [snd]. repeat split; try congruence.
Qed.

End ShownErrors.

(** ** A sink that throws before the [try] *)

Section Wedge.
Context `{Host} {Obs : Type}.

Lemma submitting_only_by_throw (w : World Obs) :
  let w' := snd (handleSubmit w) in
  state (app w) <> submitting ->
  state (app w') = submitting ->
  (exists e, fst (handleSubmit w) = Throw e)
  /\ calls w' = calls w
  /\ submitDisabled (ui (app w')) = true
  /\ spinnerHidden (ui (app w')) = false
  /\ ariaBusy (ui (app w')) = true
  /\ statusText (ui (app w')) = DEFAULTS.TEXT.STATUS_LOADING.
Proof.
  rewrite handleSubmit_phases.
  destruct w as [[st oe pe be tm u] o net cs dp]. cbn [app state].
  cbv beta iota zeta delta [mbind M_bind mret M_ret this preventDefault].
  cbn [app state].
  intros Hns.
  assert (Hg : is_submitting st = false) by (destruct st; cbn; congruence).
  rewrite Hg. clear Hg Hns.
  cbv beta iota zeta delta [setState call_onEvent set_app set_state
                            mbind M_bind].
  world_fields.
  destruct (oe "state_change"%string (DState validating) o) as [[[]|e] o1];
    [|intros Hs; discriminate Hs].
  rewrite validateAndShowErrors_eq.
  cbv beta iota zeta delta [call_onEvent set_app set_ui].
  world_fields.
  destruct (ok (validateForm u)).
  2:{ destruct (oe "validation_failed"%string _ o1) as [[[]|e] o2];
        [|intros Hs; discriminate Hs].
      world_fields.
      destruct (oe "state_change"%string (DState error) o2) as [[[]|e] o3];
        intros Hs; discriminate Hs. }
  cbn [negb].
  cbv beta iota zeta delta [getPayload this].
  world_fields.
  destruct (oe "submit"%string _ o1) as [[[]|e] o2];
    [|intros Hs; discriminate Hs].
  cbv beta iota zeta delta [disableForm showSpinner setStatus dom set_app
                            set_ui].
  world_fields.
  destruct (oe "state_change"%string (DState submitting) o2)
    as [[[]|e] o3].
  - intros Hs. exfalso. revert Hs. apply submit_try_post.
  - intros _. cbn [fst snd app ui calls].
    split; [eexists; reflexivity|]. repeat split.
Qed.

(** X14. [setState('submitting')] stands before the [try]: the only way
    a submit can end with the controller in [submitting] is the sink
    throwing on that announcement.  Then [handleSubmit] has thrown, no
    network call was made, the button is left disabled and the spinner
    visible under the loading message, and the next submit is ignored
    by the guard: it changes nothing but the event's default flag. *)
Theorem throwing_sink_wedges_form (w : World Obs) :
  let w' := snd (handleSubmit w) in
  state (app w) <> submitting ->
  state (app w') = submitting ->
  (exists e, fst (handleSubmit w) = Throw e)
  /\ calls w' = calls w
  /\ submitDisabled (ui (app w')) = true
  /\ spinnerHidden (ui (app w')) = false
  /\ ariaBusy (ui (app w')) = true
  /\ statusText (ui (app w')) = DEFAULTS.TEXT.STATUS_LOADING
  /\ handleSubmit w'
     = (Ret tt, {| app := app w'; obs := obs w'; network := network w';
                   calls := calls w'; defaultPrevented := true |}).
Proof.
  intros w' Hns Hs.
  destruct (submitting_only_by_throw w Hns Hs) as (A & B & C & D & E & F).
  repeat split; try assumption.
  apply handleSubmit_in_flight. exact Hs.
Qed.

End Wedge.

Lemma throwing_sink_wedges_form_witness :
  state (app wedged) <> submitting
  /\ state (app (snd (handleSubmit (H := ExampleHost.host) wedged)))
     = submitting
  /\ calls (snd (handleSubmit (H := ExampleHost.host) wedged)) = []
  /\ submitDisabled
       (ui (app (snd (handleSubmit (H := ExampleHost.host) wedged)))) = true.
Proof.
  assert (Hns : state (app wedged) <> submitting) by discriminate.
  assert (Hs : state (app (snd (handleSubmit (H := ExampleHost.host) wedged)))
               = submitting) by (vm_compute; reflexivity).
  destruct (throwing_sink_wedges_form (H := ExampleHost.host) wedged Hns Hs)
    as (_ & C & D & _).
  split; [exact Hns|]. split; [exact Hs|]. split; [exact C | exact D].
Defined.

Lemma network_attempt_always_cleans_up_witness :
  calls (snd (handleSubmit (H := ExampleHost.host) interrupted))
    <> calls interrupted
  /\ state (app (snd (handleSubmit (H := ExampleHost.host) interrupted)))
     <> submitting
  /\ submitDisabled
       (ui (app (snd (handleSubmit (H := ExampleHost.host) interrupted))))
     = false.
Proof.
  assert (Hc : calls (snd (handleSubmit (H := ExampleHost.host) interrupted))
               <> calls interrupted) by (vm_compute; discriminate).
  destruct (network_attempt_always_cleans_up (H := ExampleHost.host)
              interrupted Hc) as (S & _ & _ & D).
  split; [exact Hc|]. split; [exact S | exact D].
Defined.

(** ** The page at the end of an attempt *)

Section FinalPage.
Context `{Host}.



End FinalPage.

(** ** The widgets behind the wiring *)

Section RegistryFacts.
Context `{Host}.
Import RegistryBuilder.

Lemma push_all_good (bs : list jsval) (r : t) :
  Forall (fun b => nullish b = false) bs ->
  push_all bs r
  = (Ret tt, {| listEl := listEl r; items := items r ++ map item_of bs;
                stored := stored r |}).
Proof.
  intros Hall. revert r.
  induction Hall as [|b bs Hb _ IH]; intros r.
  - cbn [push_all map]. rewrite app_nil_r. destruct r; reflexivity.
  - cbn [push_all map].
    destruct b; try discriminate Hb;
      rewrite IH; cbn [listEl items stored]; rewrite <- app_assoc;
      reflexivity.
Qed.


Lemma push_all_grows (bs : list jsval) (r : t) :
  listEl (snd (push_all bs r)) = listEl r
  /\ stored (snd (push_all bs r)) = stored r
  /\ exists more, items (snd (push_all bs r)) = items r ++ more
       /\ (bs <> [] -> fst (push_all bs r) = Ret tt -> more <> []).
Proof.
  revert r. induction bs as [|b bs IH]; intros r.
  - cbn. repeat split. exists []. rewrite app_nil_r. split; congruence.
  - assert (Hn : nullish b = true ->
      listEl (snd (push_all (b :: bs) r)) = listEl r
      /\ stored (snd (push_all (b :: bs) r)) = stored r
      /\ exists more, items (snd (push_all (b :: bs) r)) = items r ++ more
           /\ (b :: bs <> [] -> fst (push_all (b :: bs) r) = Ret tt ->
               more <> [])).
    { intros Hb. destruct b; try discriminate Hb; cbn;
        repeat split; exists []; rewrite app_nil_r; split;
        (reflexivity || discriminate). }
    destruct (nullish b) eqn:Hb; [apply Hn; reflexivity|]. clear Hn.
    assert (E : push_all (b :: bs) r
                = push_all bs {| listEl := listEl r;
                                 items := items r ++ [item_of b];
                                 stored := stored r |})
      by (destruct b; try discriminate Hb; reflexivity).
    rewrite E.
    destruct (IH {| listEl := listEl r; items := items r ++ [item_of b];
                    stored := stored r |}) as (L & S & more & I & _).
    cbn [listEl items stored] in L, S, I.
    split; [exact L|]. split; [exact S|].
    exists (item_of b :: more). rewrite I, <- app_assoc.
    split; [reflexivity | discriminate].
Qed.

(** The guard of [syncFromBundles]: a registry that holds an item is
    left alone. *)
Lemma syncFromBundles_guard (bundles : jsval) (r : t) :
  items r <> [] -> syncFromBundles bundles r = (Ret tt, r).
Proof.
  intros Hi. unfold syncFromBundles.
  destruct (negb (truthy bundles) || negb (truthy (get_length bundles)));
    [reflexivity|].
  destruct (items r); [congruence|]. reflexivity.
Qed.

Lemma syncFromBundles_after (bundles : jsval) (r : t) :
  let r' := snd (syncFromBundles bundles r) in
  r' = r
  \/ items r = [] /\ items r' <> []
  \/ exists e, syncFromBundles bundles r = (Throw e, r).
Proof.
  cbv zeta. unfold syncFromBundles.
  destruct (negb (truthy bundles) || negb (truthy (get_length bundles)))
    eqn:Eg; [left; reflexivity|].
  destruct (items r) as [|i0 is0] eqn:Ei; cbn [length Nat.ltb Nat.leb];
    [|left; reflexivity].
  destruct bundles as [ | | ? | ? | ? | bs | ? ? ];
    try (right; right; eexists; reflexivity).
  destruct (push_all_grows bs r) as (L & S & more & I & N).
  destruct bs as [|b bs].
  { left. cbn. unfold save; cbn [items listEl stored].
    cbn in Eg. discriminate Eg. }
  destruct (push_all (b :: bs) r) as [[[]|e] r1] eqn:Ep; cbn [fst snd] in *.
  - right; left. split; [reflexivity|].
    assert (Hne : items r1 <> []).
    { rewrite I, Ei. cbn [List.app]. apply N; [discriminate|reflexivity]. }
    unfold render, save; cbn [items listEl stored].
    destruct (listEl r1); cbn [snd items]; exact Hne.
  - destruct more as [|m0 more].
    + right; right. exists e. f_equal.
      destruct r1 as [l1 i1 s1], r as [l0 i0 s0]; cbn in *.
      rewrite I, app_nil_r. subst. reflexivity.
    + right; left. split; [reflexivity|].
      rewrite I, Ei. discriminate.
Qed.


(** X18. [syncFromBundles] never overwrites: a registry that holds an
    item is returned as it is, whatever the bundles; and delivering the
    same bundles a second time changes nothing, whether the first
    delivery went through, did nothing, or threw. *)
Theorem registry_sync_never_overwrites (bundles : jsval) (r : t) :
  (items r = [] \/ forall b, syncFromBundles b r = (Ret tt, r))
  /\ snd (syncFromBundles bundles (snd (syncFromBundles bundles r)))
     = snd (syncFromBundles bundles r).
Proof.
  split.
  - destruct (items r) as [|i0 is0] eqn:Ei; [left; reflexivity|].
    right. intros b. apply syncFromBundles_guard. rewrite Ei. discriminate.
  - destruct (syncFromBundles_after bundles r)
      as [E | [(_ & Hne) | (e & E)]].
    + rewrite E. exact E.
    + rewrite (syncFromBundles_guard bundles _ Hne). reflexivity.
    + rewrite E. cbn [snd]. rewrite E. reflexivity.
Qed.


Lemma bundle_cards_not_nullish (bs : list jsval)
    (cards : list node) :
  bundle_cards bs = Ret cards -> Forall (fun b => nullish b = false) bs.
Proof.
  revert cards. induction bs as [|b bs IH]; intros cards; [constructor|].
  cbn [bundle_cards].
  destruct (bundle_card b) as [n|e] eqn:Eb; [|discriminate].
  destruct (bundle_cards bs) as [ns|e]; [|discriminate].
  intros _. constructor; [|eapply IH; reflexivity].
  destruct b; try reflexivity; discriminate Eb.
Qed.

(** X20. Bundles that [renderBundles] could turn into cards never make
    the registry's [forEach] throw: when the planner has rendered an
    array, the registry's [syncFromBundles] on the same array returns
    normally, provided the registry has its list element. *)
Theorem rendered_bundles_never_break_registry (bs : list jsval)
    (cards : list node) (r : t) :
  bundle_cards bs = Ret cards ->
  listEl r <> None ->
  fst (syncFromBundles (VArr bs) r) = Ret tt.
Proof.
  intros Hc Hl. unfold syncFromBundles.
  destruct (negb (truthy (VArr bs)) || negb (truthy (get_length (VArr bs))));
    [reflexivity|].
  destruct (0 <? length (items r))%nat; [reflexivity|].
  rewrite (push_all_good bs r (bundle_cards_not_nullish bs cards Hc)).
  unfold render, save; cbn [listEl items stored].
  destruct (listEl r); [reflexivity | congruence].
Qed.

End RegistryFacts.

Section MilestoneFacts.
Import MilestoneTracker.




End MilestoneFacts.

Section FanOut.
Context `{Host}.

(** X22. Each stage reaches its own widgets only: [plan_success]
    leaves the registry, the price alerts, the review form and the
    latest bundles alone, [bundles_success] leaves the quiz, the
    milestones and the latest plan alone, and every other stage leaves
    all widgets alone.  The quiz never receives the bundles, on any
    stage.  The [onEvent] option itself is never replaced. *)
Theorem stages_reach_their_own_widgets (stage : string) (d : detail)
    (x : ExperienceApp) :
  let x' := snd (handlePlannerEvent stage d x) in
  (stage = "bundles_success"%string
   \/ registry x' = registry x /\ priceAlerts x' = priceAlerts x
      /\ reviewForm x' = reviewForm x
      /\ latestBundles x' = latestBundles x)
  /\ (stage = "plan_success"%string
      \/ grokQuiz x' = grokQuiz x /\ milestones x' = milestones x
         /\ latestPlan x' = latestPlan x)
  /\ (stage = "plan_success"%string \/ stage = "bundles_success"%string
      \/ chat x' = chat x)
  /\ GrokQuiz.latestBundles <$> grokQuiz x'
     = GrokQuiz.latestBundles <$> grokQuiz x
  /\ config_onEvent x' = config_onEvent x.
Proof.
  cbv zeta. unfold handlePlannerEvent.
  destruct (String.eqb_spec stage "plan_success") as [Ep|Ep].
  - subst stage. unfold on_plan_success.
    assert (Q : forall plan,
               GrokQuiz.latestBundles <$> (GrokQuiz.syncPlan plan <$> grokQuiz x)
               = GrokQuiz.latestBundles <$> grokQuiz x)
      by (intros plan; destruct (grokQuiz x); reflexivity).
    destruct (milestones x) as [m|].
    + destruct (MilestoneTracker.syncFromPlan _ m) as [[[]|e] m'];
        unfold forward; cbn [fst snd config_onEvent];
        try destruct (config_onEvent x);
        cbn [snd registry priceAlerts reviewForm latestBundles grokQuiz
             config_onEvent];
        (split; [right; repeat split|]); (split; [left; reflexivity|]);
        (split; [left; reflexivity|]); (split; [apply Q | reflexivity]).
    + unfold forward; cbn [fst snd config_onEvent];
        destruct (config_onEvent x);
        cbn [snd registry priceAlerts reviewForm latestBundles grokQuiz
             config_onEvent];
        (split; [right; repeat split|]); (split; [left; reflexivity|]);
        (split; [left; reflexivity|]); (split; [apply Q | reflexivity]).
  - destruct (String.eqb_spec stage "bundles_success") as [Eb|Eb].
    + subst stage. unfold on_bundles_success.
      destruct (registry x) as [r|].
      * destruct (RegistryBuilder.syncFromBundles _ r) as [[[]|e] r'];
          unfold forward; cbn [fst snd config_onEvent];
          try destruct (config_onEvent x);
          cbn [snd grokQuiz milestones latestPlan config_onEvent];
          (split; [left; reflexivity|]); (split; [right; repeat split|]);
          (split; [right; left; reflexivity|]); split; reflexivity.
      * unfold forward; cbn [fst snd config_onEvent];
          destruct (config_onEvent x);
          cbn [snd grokQuiz milestones latestPlan config_onEvent];
          (split; [left; reflexivity|]); (split; [right; repeat split|]);
          (split; [right; left; reflexivity|]); split; reflexivity.
    + unfold forward. destruct (config_onEvent x) eqn:Ec;
        cbn [snd registry priceAlerts reviewForm latestBundles grokQuiz
             milestones latestPlan chat config_onEvent];
        (split; [right; repeat split|]); (split; [right; repeat split|]);
        (split; [right; right; reflexivity|]); split;
        (reflexivity || (symmetry; exact Ec) || exact Ec).
Qed.

End FanOut.

(** ** Network calls and the page, by outcome *)

Section OutcomeFacts.
Context `{Host}.



End OutcomeFacts.

(** ** Resetting the page *)

Section Reset.
Context `{Host} {Obs : Type}.

(** X24. [resetUI] puts the controller in [idle] and clears the status
    line, the spinner and the messages under the inputs, whatever the
    sink does; it does not touch the rendered plan and bundles, the
    focus, the text in the inputs, or the submit button: a button that
    was left disabled stays disabled. *)
Theorem resetUI_clears_feedback_only (w : World Obs) :
  let u := ui (app w) in
  let w' := snd (resetUI w) in
  let u' := ui (app w') in
  let cleared (i : InputEl) := {| value := value i; shownError := None |} in
  state (app w') = idle
  /\ statusText u' = DEFAULTS.TEXT.STATUS_IDLE
  /\ statusClass u' = DEFAULTS.CSS.STATUS_NEUTRAL
  /\ spinnerHidden u' = true /\ ariaBusy u' = false
  /\ ageInput u' = cleared <$> ageInput u
  /\ concernInput u' = cleared <$> concernInput u
  /\ emailInput u' = cleared <$> emailInput u
  /\ planSection u' = planSection u
  /\ bundlesSection u' = bundlesSection u
  /\ focused u' = focused u
  /\ submitDisabled u' = submitDisabled u
  /\ calls w' = calls w.
Proof.
  destruct w as [[st oe pe be tm u] o net cs dp].
  destruct u as [ps bs stt stc sh ab sd fo ia ic ie].
  unfold resetUI. run_flat.
  destruct (oe "state_change"%string (DState idle) o) as [r o'].
  run_flat. repeat split.
Qed.

End Reset.

(** ** The two copies of the static handler *)

Section HandlerCopies.
Import StaticServer.
Variable base64_decode : jsstring -> jsstring.
Variable cwd : jsstring.
Variables USER PASS : option jsstring.
Variable fs : jsstring -> option (list Byte.byte).

Lemma lookup_mime_copies (ext : jsstring) :
  lookup_mime mimeTypes1 ext = lookup_mime mimeTypes2 ext
  \/ ext = js ".js" \/ ext = js ".json" \/ ext = js ".ico".
Proof.
  unfold lookup_mime, mimeTypes1, mimeTypes2.
  destruct (decide (ext = js ".js")) as [->|Njs]; [auto|].
  destruct (decide (ext = js ".json")) as [->|Njson]; [auto|].
  destruct (decide (ext = js ".ico")) as [->|Nico]; [auto|].
  left. cbn [find fst snd].
  rewrite (bool_decide_eq_false_2 (js ".js" = ext)) by congruence.
  rewrite (bool_decide_eq_false_2 (js ".json" = ext)) by congruence.
  rewrite (bool_decide_eq_false_2 (js ".ico" = ext)) by congruence.
  repeat (case_bool_decide; [reflexivity|]). reflexivity.
Qed.

(** X25. The two copies of the handler answer every request with the
    same status, and outside 401 with the same body; they differ only
    in the realm and text of the 401 answer and in the content type of
    [.js], [.json] and [.ico] files. *)
Theorem handler_copies_agree (req : Request) :
  let r1 := handler1 base64_decode cwd USER PASS fs req in
  let r2 := handler2 base64_decode cwd USER PASS fs req in
  let ext := toLowerCase (extname (filePath cwd req)) in
  statusCode r1 = statusCode r2
  /\ (statusCode r1 = 401 \/ body r1 = body r2)
  /\ (statusCode r1 = 401 \/ headers r1 = headers r2
      \/ ext = js ".js" \/ ext = js ".json" \/ ext = js ".ico").
Proof.
  cbv zeta. unfold handler1, handler2, handler.
  destruct (authenticated base64_decode USER PASS req);
    [|repeat split; left; reflexivity].
  destruct (fs (filePath cwd req)) as [data|];
    [|repeat split; right; auto].
  cbn [statusCode body headers].
  split; [reflexivity|]. split; [right; reflexivity|].
  right.
  destruct (lookup_mime_copies (toLowerCase (extname (filePath cwd req))))
    as [E|E]; [left; rewrite E; reflexivity | right; exact E].
Qed.

End HandlerCopies.

(** ** What the traversal filter gets to see *)

Section JoinedPath.
Import StaticServer.

Lemma split_on_no_sep (sep : N) (s : jsstring) :
  ~ In sep s -> split_on sep s = [s].
Proof.
  induction s as [|c r IH]; intros Hn; [reflexivity|].
  cbn [split_on].
  destruct (N.eqb_spec c sep) as [->|Hc]; [exfalso; apply Hn; left; reflexivity|].
  rewrite IH; [reflexivity|]. intros Hin. apply Hn. right. exact Hin.
Qed.

Lemma split_on_app (sep : N) (s t : jsstring) :
  ~ In sep s -> split_on sep (s ++ sep :: t) = s :: split_on sep t.
Proof.
  induction s as [|c r IH]; intros Hn.
  - cbn [List.app split_on]. rewrite N.eqb_refl. reflexivity.
  - cbn [List.app split_on].
    destruct (N.eqb_spec c sep) as [->|Hc];
      [exfalso; apply Hn; left; reflexivity|].
    rewrite IH; [reflexivity|]. intros Hin. apply Hn. right. exact Hin.
Qed.

Lemma split_on_snoc_sep (sep : N) (s : jsstring) :
  split_on sep (s ++ [sep]) = split_on sep s ++ [[]].
Proof.
  induction s as [|c r IH].
  - cbn [List.app split_on]. rewrite N.eqb_refl. reflexivity.
  - cbn [List.app split_on]. destruct (c =? sep); [rewrite IH; reflexivity|].
    rewrite IH. destruct (split_on_cons sep r) as (p & ps & E).
    rewrite E. reflexivity.
Qed.

(** Splitting undoes joining. *)
Lemma split_on_join_slash (segments : list jsstring) :
  Forall (fun p => ~ In 0x2F p) segments -> segments <> [] ->
  split_on 0x2F (join_slash segments) = segments.
Proof.
  induction 1 as [|s rest Hs Hrest IH]; intros Hne;
    [exfalso; apply Hne; reflexivity|].
  destruct rest as [|s' rest].
  - cbn [join_slash]. apply split_on_no_sep. exact Hs.
  - change (join_slash (s :: s' :: rest))
      with (s ++ 0x2F :: join_slash (s' :: rest)).
    rewrite split_on_app by exact Hs. rewrite IH by discriminate.
    reflexivity.
Qed.

(** Under an absolute path no [..] is ever kept. *)
Lemma normalizeString_absolute (P : jsstring -> Prop)
    (segments res : list jsstring) :
  Forall P res -> Forall P segments ->
  Forall (fun s => is_dotdot s = false) res ->
  Forall P (normalizeString false res segments)
  /\ Forall (fun s => is_dotdot s = false) (normalizeString false res segments).
Proof.
  revert res. induction segments as [|s rest IH]; intros res Hres Hseg Hdd.
  - cbn [normalizeString]. split; apply Forall_rev; assumption.
  - inversion Hseg as [|? ? Hs Hrest]; subst. cbn [normalizeString].
    destruct (bool_decide (s = []) || is_dot s); [apply IH; assumption|].
    destruct (is_dotdot s) eqn:Es.
    + destruct res as [|top below]; [apply IH; assumption|].
      inversion Hres; inversion Hdd; subst.
      destruct (is_dotdot top); apply IH; assumption.
    + apply IH; try assumption; constructor; assumption.
Qed.

Lemma normalize_absolute_segments (p : jsstring) :
  Forall (fun s => is_dotdot s = false)
         (split_on 0x2F (normalize (0x2F :: p))).
Proof.
  unfold normalize. change (0x2F =? 0x2F) with true. cbn [negb].
  set (segments := normalizeString false [] (split_on 0x2F (0x2F :: p))).
  destruct (normalizeString_absolute (fun s => ~ In 0x2F s)
              (split_on 0x2F (0x2F :: p)) [])
    as (Hslash & Hdd);
    [constructor | apply split_on_pieces | constructor |].
  fold segments in Hslash, Hdd.
  destruct (join_slash segments) as [|c body] eqn:Eb.
  - repeat constructor.
  - assert (Hne : segments <> [])
      by (intros E; rewrite E in Eb; discriminate Eb).
    rewrite <- Eb.
    destruct (List.last (0x2F :: p) 0 =? 0x2F).
    + change (split_on 0x2F (0x2F :: join_slash segments ++ [0x2F]))
        with ([] :: split_on 0x2F (join_slash segments ++ [0x2F])).
      rewrite split_on_snoc_sep, split_on_join_slash by assumption.
      constructor; [reflexivity|]. apply Forall_app. split; [exact Hdd|].
      repeat constructor.
    + change (split_on 0x2F (0x2F :: join_slash segments))
        with ([] :: split_on 0x2F (join_slash segments)).
      rewrite split_on_join_slash by assumption.
      constructor; [reflexivity | exact Hdd].
Qed.

(** X26. In a deployment whose working directory is absolute, the path
    that [path.join] hands to the traversal filter has no [..] segment,
    whatever the request: [path.join] has already resolved them.  So
    the filter never removes a traversal; all it can remove are two
    dots inside a name. *)
Theorem joined_path_has_no_dotdot_segment (dir x : jsstring) :
  Forall (fun s => is_dotdot s = false)
         (split_on 0x2F
            (path_join [0x2F :: dir; js "frontend"; js "public"; x])).
Proof.
  assert (E : exists rest,
            path_join [0x2F :: dir; js "frontend"; js "public"; x]
            = normalize (0x2F :: rest))
    by (destruct x as [|c x]; eexists; reflexivity).
  destruct E as (rest & ->). apply normalize_absolute_segments.
Qed.

End JoinedPath.

(** ** The two fetch wrappers *)

Section TwoWrappers.
Variable SyntaxError : jsval.

(** X27. The experience layer's [jsonFetch] returns exactly when the
    planner's does and throws exactly when it does.  The results
    differ in three cases only: an empty body is [{}] instead of
    [null]; an abort comes out as the abort itself where the planner
    throws its timeout error; and a body that does not parse comes out
    as the parser's [SyntaxError] where the planner throws its
    invalid-JSON error. *)
Theorem experience_fetch_differs_in_three_ways (o : fetch_outcome) :
  match jsonFetch_result o, ExperienceLayer.jsonFetch_result SyntaxError o with
  | Ret v, Ret v' =>
      v' = v
      \/ v = VNull /\ v' = VObj CObject []
         /\ exists status, o = FetchResponse status BodyEmpty
  | Throw e, Throw e' =>
      e' = e
      \/ e = timeout_error /\ is_abort e' = true
      \/ e = new_Error (js "Invalid JSON response") /\ e' = SyntaxError
  | _, _ => False
  end.
Proof.
  unfold jsonFetch_result, jsonFetch_try, ExperienceLayer.jsonFetch_result.
  destruct o as [e|status body].
  - fold (is_abort e). destruct (is_abort e) eqn:Ea; auto.
  - destruct (res_ok status); cbn [negb].
    + destruct body;
        cbn [truthy andb get_name assoc prop String.eqb Ascii.eqb Bool.eqb
             is_str new_Error AbortError].
      * right. eauto.
      * left. reflexivity.
      * rewrite bool_decide_eq_false_2 by discriminate.
        right. right. split; reflexivity.
      * rewrite bool_decide_eq_true_2 by reflexivity.
        right. left. split; reflexivity.
    + cbv zeta.
      cbn [truthy andb get_name assoc prop String.eqb Ascii.eqb Bool.eqb
           is_str].
      rewrite bool_decide_eq_false_2 by discriminate.
      left. do 3 f_equal.
      destruct body as [|json| |]; rewrite ?app_nil_r; try reflexivity.
      destruct (truthy json && typeof_string (get_prop json "message"));
        [|rewrite app_nil_r; reflexivity].
      destruct (get_prop json "message");
        rewrite ?app_nil_r, <- ?app_assoc; reflexivity.
Qed.

End TwoWrappers.

(** ** An unset password *)

Section UnsetPassword.
Import StaticServer.
Variable base64_decode : jsstring -> jsstring.
Variable cwd : jsstring.
Variables USER PASS : option jsstring.
Variable fs : jsstring -> option (list Byte.byte).
Variable mimeTypes : list (jsstring * jsstring).
Variable realm authMessage : jsstring.

(** X28. With [BASIC_AUTH_PASSWORD] unset, the user name alone gets
    in: credentials that decode to the configured user name, with no
    [:] and so no password, are accepted, and the request is not
    answered 401. *)
Theorem unset_password_admits_bare_username (req : Request)
    (b64 u : jsstring) :
  USER = Some u -> PASS = None ->
  authorization req = Some (js "Basic " ++ b64) ->
  ~ In 0x20 b64 ->
  base64_decode b64 = u -> ~ In 0x3A u ->
  authenticated base64_decode USER PASS req = true
  /\ statusCode (handler base64_decode cwd USER PASS fs mimeTypes realm
                         authMessage req) <> 401.
Proof.
  intros -> -> Hauth Hsp Hdec Hcolon.
  assert (A : authenticated base64_decode (Some u) None req = true).
  { unfold authenticated. rewrite Hauth.
    change (js "Basic " ++ b64) with (js "Basic" ++ 0x20 :: b64).
    assert (E : or_str (js "Basic" ++ 0x20 :: b64) []
                = js "Basic" ++ 0x20 :: b64) by reflexivity.
    rewrite E. clear E.
    rewrite split_on_app
      by (intros Hin; cbn in Hin; intuition discriminate).
    rewrite (split_on_no_sep 0x20 b64 Hsp).
    cbn [index nth_error].
    assert (E : or_str b64 [] = b64) by (destruct b64; reflexivity).
    rewrite E, Hdec, (split_on_no_sep 0x3A u Hcolon).
    cbn [index nth_error].
    rewrite !bool_decide_eq_true_2 by reflexivity. reflexivity. }
  split; [exact A|].
  unfold handler. rewrite A.
  destruct (fs _); cbn [statusCode]; discriminate.
Qed.

End UnsetPassword.

Lemma unset_password_admits_bare_username_witness :
  StaticServer.authenticated decode_bare (Some (js "user")) None
    bare_username = true
  /\ StaticServer.statusCode
       (StaticServer.handler1 decode_bare Examples.cwd (Some (js "user"))
          None Examples.disk bare_username) <> 401%N.
Proof.
  apply (unset_password_admits_bare_username decode_bare Examples.cwd
           (Some (js "user")) None Examples.disk StaticServer.mimeTypes1
           (js "Protected Area") (js "Authentication required")
           bare_username (js "dXNlcg==") (js "user"));
    try reflexivity;
    intros Hin; cbn in Hin; intuition discriminate.
Defined.

(** ** The properties above on the examples *)

Section MoreScenarios.
Import ExampleHost Examples.






Lemma rendered_bundles_never_break_registry_witness :
  (exists cards, bundle_cards [kit_A] = Ret cards)
  /\ fst (RegistryBuilder.syncFromBundles (VArr [kit_A]) empty_registry)
     = Ret tt.
Proof.
  destruct (bundle_cards [kit_A]) as [cards|e] eqn:E;
    [|vm_compute in E; discriminate E].
  split; [exists cards; reflexivity|].
  apply (rendered_bundles_never_break_registry [kit_A] cards empty_registry E).
  discriminate.
Defined.

End MoreScenarios.
